(** * Multi-source analysis agent: router, workers, orchestration graph

    A shallow embedding of [nodes.py], [graph.py], [main.py] and of the
    chart-path helper of [app_ui.py].  Python strings are modelled as
    [string] (sequences of 8-bit characters); [str.lower] acts on the
    ASCII letters, which is all the keyword tests of the program look at.
    Text is taken to be ASCII: a byte above 127 is neither a letter nor
    white space here, and case is ignored on the ASCII letters only.
    Exceptions are values of [exn]; a function that may raise returns a
    [result].

    The language model, the tools and the file system are parameters
    ([Env]).  Three pieces of library behaviour the program relies on are
    modelled after the libraries: the [type] strings of the message
    classes, the [add_messages] reducer that merges a node's patch into
    the history by message id, and the engine loop that visits nodes up
    to the recursion limit. *)

From Stdlib Require Import String Ascii List Bool Arith Lia.
Import ListNotations.
Open Scope string_scope.
Open Scope bool_scope.

(* ===================================================================== *)
(** ** Python string primitives *)
(* ===================================================================== *)

Module PyStr.

Definition in_range (lo hi : nat) (c : ascii) : bool :=
  let n := nat_of_ascii c in ((lo <=? n) && (n <=? hi))%nat.

Definition is_upper (c : ascii) : bool := in_range 65 90 c.
Definition is_lower (c : ascii) : bool := in_range 97 122 c.
Definition is_digit (c : ascii) : bool := in_range 48 57 c.

Definition lower_char (c : ascii) : ascii :=
  if is_upper c then ascii_of_nat (nat_of_ascii c + 32) else c.

(** [s.lower()] *)
Fixpoint lower (s : string) : string :=
  match s with
  | "" => ""
  | String c s' => String (lower_char c) (lower s')
  end.

(** [s.startswith(p)] *)
Fixpoint startswith (s p : string) {struct p} : bool :=
  match p, s with
  | "", _ => true
  | String a p', String b s' => Ascii.eqb a b && startswith s' p'
  | String _ _, "" => false
  end.

(** [s.endswith(suf)] *)
Fixpoint endswith (s suf : string) : bool :=
  String.eqb s suf ||
  match s with
  | "" => false
  | String _ s' => endswith s' suf
  end.

(** [needle in s] *)
Fixpoint contains (needle s : string) : bool :=
  startswith s needle ||
  match s with
  | "" => false
  | String _ s' => contains needle s'
  end.

(** [sep.join(parts)] *)
Fixpoint join (sep : string) (parts : list string) : string :=
  match parts with
  | [] => ""
  | [p] => p
  | p :: rest => p ++ sep ++ join sep rest
  end.

(** [s.replace(a, b)] for a one-character [a] and [b] *)
Fixpoint replace_char (a b : ascii) (s : string) : string :=
  match s with
  | "" => ""
  | String c s' => String (if Ascii.eqb c a then b else c) (replace_char a b s')
  end.

(** Whitespace as [str.strip] and the regular-expression class [\s]
    see it, on the ASCII range. *)
Definition is_space (c : ascii) : bool :=
  let n := nat_of_ascii c in
  ((n =? 32) || ((9 <=? n) && (n <=? 13)) || ((28 <=? n) && (n <=? 31)))%nat.

Fixpoint lstrip (s : string) : string :=
  match s with
  | "" => ""
  | String c s' => if is_space c then lstrip s' else s
  end.

Fixpoint rstrip (s : string) : string :=
  match s with
  | "" => ""
  | String c s' =>
      match rstrip s' with
      | "" => if is_space c then "" else String c ""
      | t => String c t
      end
  end.

(** [s.strip()] *)
Definition strip (s : string) : string := rstrip (lstrip s).

(** Prop-level readings of the three tests. *)
Definition is_prefix (p s : string) : Prop := exists t, s = p ++ t.
Definition is_suffix (suf s : string) : Prop := exists a, s = a ++ suf.
Definition is_substring (w s : string) : Prop := exists a b, s = a ++ w ++ b.

End PyStr.

(* ===================================================================== *)
(** ** Exceptions and results *)
(* ===================================================================== *)

Inductive exn : Type :=
| RuntimeError (msg : string)
| StopIteration
| AttributeError
| KeyError (key : string)
| IndexError
| ValueError (msg : string)
| GraphRecursionError.

Inductive result (A : Type) : Type :=
| Ok (a : A)
| Raise (e : exn).
Arguments Ok {A} a.
Arguments Raise {A} e.

Definition bind {A B} (r : result A) (k : A -> result B) : result B :=
  match r with
  | Ok a => k a
  | Raise e => Raise e
  end.

Notation "'let*' x ':=' r 'in' k" := (bind r (fun x => k))
  (at level 10, x name, r at level 200, k at level 200).

(* ===================================================================== *)
(** ** Messages and conversation state ([state.py]) *)
(* ===================================================================== *)

(** A Python [dict] with string keys and values, in insertion order. *)
Definition dict := list (string * string).

Fixpoint dict_lookup (d : dict) (k : string) : option string :=
  match d with
  | [] => None
  | (k', v) :: d' => if String.eqb k' k then Some v else dict_lookup d' k
  end.

(** [d.get(k, default)] *)
Definition dict_get (d : dict) (k default : string) : string :=
  match dict_lookup d k with
  | Some v => v
  | None => default
  end.

(** A tool-call request of an assistant message: [{"name": .., "args": ..}]. *)
Record ToolCall := mkToolCall {
  tc_name : string;
  tc_args : dict
}.

(** Message content is a [str] or a list whose items are [str] or [dict]. *)
Inductive Part :=
| PStr (s : string)
| PDict (d : dict).

Inductive Content :=
| CStr (s : string)
| CList (parts : list Part).

(** The message classes of [langchain_core.messages] the program handles. *)
Inductive MsgClass := HumanMessage | AIMessage | ToolMessage | SystemMessage.

Definition MsgClass_eqb (a b : MsgClass) : bool :=
  match a, b with
  | HumanMessage, HumanMessage | AIMessage, AIMessage
  | ToolMessage, ToolMessage | SystemMessage, SystemMessage => true
  | _, _ => false
  end.

Record Message := mkMessage {
  msg_class  : MsgClass;
  msg_id     : option nat;
  content    : Content;
  tool_calls : list ToolCall
}.

(** The [type] attribute is fixed by the class: [langchain_core] declares
    ["human"], ["ai"], ["tool"] and ["system"]. *)
Definition msg_type (m : Message) : string :=
  match msg_class m with
  | HumanMessage => "human"
  | AIMessage => "ai"
  | ToolMessage => "tool"
  | SystemMessage => "system"
  end.

(** [isinstance(m, cls)] *)
Definition isinstance (m : Message) (cls : MsgClass) : bool :=
  MsgClass_eqb (msg_class m) cls.

(** Truthiness of [m.tool_calls]. *)
Definition has_tool_calls (m : Message) : bool :=
  match tool_calls m with
  | [] => false
  | _ :: _ => true
  end.

(** [AgentState]: a missing optional key and [None] both read as [None]
    through [state.get]. *)
Record AgentState := mkState {
  messages             : list Message;
  file_paths           : list string;
  active_worker        : string;
  last_sql_query       : option string;
  chart_code_generated : option bool
}.

(** The partial-state patch a node returns: a key is written only when
    the corresponding field is [Some]. *)
Record Update := mkUpdate {
  u_messages             : option (list Message);
  u_active_worker        : option string;
  u_last_sql_query       : option (option string);
  u_chart_code_generated : option (option bool)
}.

Definition no_update : Update := mkUpdate None None None None.

(** [xs[-1]] and [xs[0]], as lookups and as the raising subscripts. *)
Definition last_of {A} (xs : list A) : option A :=
  match rev xs with
  | [] => None
  | x :: _ => Some x
  end.

Definition subscript_last {A} (xs : list A) : result A :=
  match last_of xs with
  | Some x => Ok x
  | None => Raise IndexError
  end.

Definition subscript_first {A} (xs : list A) : result A :=
  match xs with
  | x :: _ => Ok x
  | [] => Raise IndexError
  end.

(* ===================================================================== *)
(** ** The router ([nodes.py], [supervisor_node]) *)
(* ===================================================================== *)

Definition db_ext : string := ".db".
Definition csv_ext : string := ".csv".
Definition sql_keywords : list string := ["sql"; "database"; "table"; "query"].

(** [[part.get("text", "") for part in content]]: an item that is a
    [str] has no [get]. *)
Fixpoint parts_text (parts : list Part) : result (list string) :=
  match parts with
  | [] => Ok []
  | PDict d :: rest =>
      let* ts := parts_text rest in Ok (dict_get d "text" "" :: ts)
  | PStr _ :: _ => Raise AttributeError
  end.

(** [" ".join(...) if isinstance(content, list) else (content or "")] *)
Definition text_query (c : Content) : result string :=
  match c with
  | CStr s => Ok s
  | CList parts => let* ts := parts_text parts in Ok (PyStr.join " " ts)
  end.

Definition has_db (files : list string) : bool :=
  existsb (fun f => PyStr.endswith (PyStr.lower f) db_ext) files.

Definition has_csv (files : list string) : bool :=
  existsb (fun f => PyStr.endswith (PyStr.lower f) csv_ext) files.

Definition has_sql_keyword (query : string) : bool :=
  existsb (fun word => PyStr.contains word query) sql_keywords.

Definition route (w : string) : Update :=
  mkUpdate None (Some w) None None.

Definition supervisor_node (state : AgentState) : result Update :=
  match last_of (messages state) with
  | None => Ok (route "general")
  | Some last_message =>
      if String.eqb (msg_type last_message) "assistant"
         && negb (has_tool_calls last_message)
      then Ok (route "general")
      else
        let* text := text_query (content last_message) in
        let query := PyStr.lower text in
        let files := file_paths state in
        if has_db files && has_sql_keyword query then Ok (route "sql_worker")
        else if has_csv files then Ok (route "csv_worker")
        else Ok (route "general")
  end.

(* ===================================================================== *)
(** ** Regular expressions as [re.search] runs them *)
(* ===================================================================== *)

(** The fragment the program's patterns use: one-character classes,
    concatenation, greedy and lazy repetition of a class, and the single
    capturing group.  Matching is leftmost with backtracking, as in
    Python's [re]. *)
Module Re.

Inductive regex :=
| Eps
| Chr (p : ascii -> bool)
| Cat (r1 r2 : regex)
| Star (greedy : bool) (p : ascii -> bool)
| Group (r : regex).

Definition Plus (greedy : bool) (p : ascii -> bool) : regex :=
  Cat (Chr p) (Star greedy p).

(** A literal, compared exactly or under [re.IGNORECASE]. *)
Definition exactly (a : ascii) : ascii -> bool := fun c => Ascii.eqb c a.
Definition ignoring_case (a : ascii) : ascii -> bool :=
  fun c => Ascii.eqb (PyStr.lower_char c) (PyStr.lower_char a).

Fixpoint Lit (cmp : ascii -> ascii -> bool) (w : string) : regex :=
  match w with
  | "" => Eps
  | String a w' => Cat (Chr (cmp a)) (Lit cmp w')
  end.

(** Character classes: [.], [\s], [\w], [[\w\-_.]] and [[/\\]]. *)
Definition dot (c : ascii) : bool := negb (Ascii.eqb c "010"%char).
Definition space : ascii -> bool := PyStr.is_space.
Definition word (c : ascii) : bool :=
  PyStr.is_lower c || PyStr.is_upper c || PyStr.is_digit c || Ascii.eqb c "_"%char.
Definition name_char (c : ascii) : bool :=
  word c || Ascii.eqb c "-"%char || Ascii.eqb c "_"%char || Ascii.eqb c "."%char.
Definition separator (c : ascii) : bool :=
  Ascii.eqb c "/"%char || Ascii.eqb c "\"%char.

Section Matcher.
Context {A : Type}.

Fixpoint star_greedy (p : ascii -> bool) (k : string -> option A)
         (s : string) : option A :=
  match s with
  | String c s' =>
      if p c then
        match star_greedy p k s' with
        | Some r => Some r
        | None => k s
        end
      else k s
  | "" => k s
  end.

Fixpoint star_lazy (p : ascii -> bool) (k : string -> option A)
         (s : string) : option A :=
  match k s with
  | Some r => Some r
  | None =>
      match s with
      | String c s' => if p c then star_lazy p k s' else None
      | "" => None
      end
  end.

(** The part of [s] consumed to reach its suffix [s']. *)
Definition consumed (s s' : string) : string :=
  substring 0 (String.length s - String.length s') s.

(** [rmatch r s g k]: match [r] at the start of [s], with [g] the
    capture so far, and continue with [k] on the rest; [None] asks the
    caller to backtrack. *)
Fixpoint rmatch (r : regex) (s : string) (g : option string)
         (k : string -> option string -> option A) : option A :=
  match r with
  | Eps => k s g
  | Chr p =>
      match s with
      | String c s' => if p c then k s' g else None
      | "" => None
      end
  | Cat r1 r2 => rmatch r1 s g (fun s' g' => rmatch r2 s' g' k)
  | Star true p => star_greedy p (fun s' => k s' g) s
  | Star false p => star_lazy p (fun s' => k s' g) s
  | Group r1 => rmatch r1 s g (fun s' _ => k s' (Some (consumed s s')))
  end.
End Matcher.

(** A match anchored at the start of [s]: its capture. *)
Definition match_here (r : regex) (s : string) : option (option string) :=
  rmatch r s None (fun _ g => Some g).

(** [re.search(r, text)]: the leftmost position where [r] matches. *)
Fixpoint search (r : regex) (text : string) : option (option string) :=
  match match_here r text with
  | Some g => Some g
  | None =>
      match text with
      | String _ text' => search r text'
      | "" => None
      end
  end.

(** [m = re.search(r, text)] followed by [m.group(1)]. *)
Definition search_group1 (r : regex) (text : string) : option string :=
  match search r text with
  | Some (Some g) => Some g
  | _ => None
  end.

End Re.

(* ===================================================================== *)
(** ** Chart-path extraction ([app_ui.py], [extract_chart_path]) *)
(* ===================================================================== *)

Import Re.

(** The group [(.+?\.png)] both patterns capture. *)
Definition png_group : regex :=
  Group (Cat (Plus false dot) (Lit ignoring_case ".png")).

(** [r"saved to:\s*(.+?\.png)"] *)
Definition saved_to_pattern : regex :=
  Cat (Lit ignoring_case "saved to:")
      (Cat (Star true space) png_group).

(** [r"\[Chart saved to\s+(.+?\.png)\]"] *)
Definition bracket_pattern : regex :=
  Cat (Lit ignoring_case "[Chart saved to")
      (Cat (Plus true space)
           (Cat png_group (Lit ignoring_case "]"))).

Definition patterns : list regex := [saved_to_pattern; bracket_pattern].

(** [r"charts[/\\]([\w\-_.]+\.png)"] *)
Definition charts_pattern : regex :=
  Cat (Lit ignoring_case "charts")
      (Cat (Chr separator)
           (Group (Cat (Plus true name_char) (Lit ignoring_case ".png")))).

(** The body of the loop once a pattern has matched with capture [g]. *)
Definition normalize_path (g : string) : string :=
  let full_path := PyStr.strip g in
  let relative :=
    if PyStr.contains "charts" (PyStr.lower full_path) then
      match search_group1 charts_pattern full_path with
      | Some name => Some ("charts/" ++ name)
      | None => None
      end
    else None in
  match relative with
  | Some p => p
  | None =>
      if PyStr.startswith full_path "charts"
      then PyStr.replace_char "\"%char "/"%char full_path
      else full_path
  end.

Fixpoint first_match (pats : list regex) (text : string) : option string :=
  match pats with
  | [] => None
  | pattern :: rest =>
      match search_group1 pattern text with
      | Some g => Some (normalize_path g)
      | None => first_match rest text
      end
  end.

Definition extract_chart_path (text : string) : option string :=
  first_match patterns text.

(* ===================================================================== *)
(** ** The outside world: model, tools, file system *)
(* ===================================================================== *)

(** What the language model is asked at each call site: the values the
    prompt template interpolates and the history sent along with it. *)
Inductive LLMCall :=
| SummarizeCsv (tool_output : string)
| GenerateCsv (csv_files : list string) (task : Content) (history : list Message)
| SummarizeSql (history : list Message)
| GenerateSql (db_file : string) (task : Content) (chart_intent : bool)
              (history : list Message)
| SummarizeChart (tool_output : Content)
| GenerateChart (db_file sql_query : string) (task : Content).

Record LLMResponse := mkResponse {
  resp_content    : string;
  resp_tool_calls : list ToolCall
}.

Record Env := mkEnv {
  llm         : LLMCall -> LLMResponse;   (* [llm.invoke], tools bound or not *)
  run_tool    : ToolCall -> string;       (* a tool run by a [ToolNode] *)
  path_exists : string -> bool;           (* [os.path.exists] *)
  listdir     : list string               (* [os.listdir(settings.UPLOAD_DIR)] *)
}.

(** The response object of the model: an [AIMessage] not yet in the
    state.  The program never sets an id; the id a reply or a tool result
    carries is taken to be new to the history, like the UUIDs the reducer
    draws, so such messages go in without one and are numbered there. *)
Definition ai_message (text : string) (calls : list ToolCall) : Message :=
  mkMessage AIMessage None (CStr text) calls.

Definition response_message (r : LLMResponse) : Message :=
  ai_message (resp_content r) (resp_tool_calls r).

(** [os.path.basename] and [os.path.join("uploads", p)] on POSIX paths. *)
Fixpoint basename_from (p acc : string) : string :=
  match p with
  | "" => acc
  | String c p' =>
      if Ascii.eqb c "/"%char then basename_from p' ""
      else basename_from p' (acc ++ String c "")
  end.

Definition basename (p : string) : string := basename_from p "".

Definition join_uploads (p : string) : string :=
  if PyStr.startswith p "/" then p else "uploads/" ++ p.

(** [next(f for f in files if f.endswith(".db"))] *)
Fixpoint next_db (files : list string) : result string :=
  match files with
  | [] => Raise StopIteration
  | f :: rest => if PyStr.endswith f ".db" then Ok f else next_db rest
  end.

(** Truthiness of [state.get("last_sql_query")]. *)
Definition stored_query (state : AgentState) : option string :=
  match last_sql_query state with
  | Some "" => None
  | Some q => Some q
  | None => None
  end.

Definition has_stored_query (state : AgentState) : bool :=
  match stored_query state with
  | Some _ => true
  | None => false
  end.

Definition chart_words : list string :=
  ["plot"; "chart"; "graph"; "visualize"; "draw";
   "histogram"; "bar"; "line"; "scatter"; "pie"].

(** [any(w in user_query for w in chart_words)] *)
Definition has_chart_intent (user_query : string) : bool :=
  existsb (fun w => PyStr.contains w user_query) chart_words.

(** [content.lower()]: only a [str] has the method. *)
Definition content_lower (c : Content) : result string :=
  match c with
  | CStr s => Ok (PyStr.lower s)
  | CList _ => Raise AttributeError
  end.

(** [r"\[Chart saved to (.+?)\]"], case-sensitive. *)
Definition tool_marker_pattern : regex :=
  Cat (Lit exactly "[Chart saved to ")
      (Cat (Group (Plus false dot)) (Lit exactly "]")).

Definition sql_error_text : string :=
  "Error: Unable to generate chart - SQL query not found.".

(* ===================================================================== *)
(** ** The workers ([nodes.py]) and the tool nodes ([graph.py]) *)
(* ===================================================================== *)

Section Nodes.
Variable env : Env.

(** [tools.py], [get_sql_tools]: only its failure matters here. *)
Definition get_sql_tools (db_file : string) : result unit :=
  let db_path := join_uploads (basename db_file) in
  if path_exists env db_path then Ok tt
  else Raise (RuntimeError ("Database file not found: " ++ db_path)).

Definition csv_worker_node (state : AgentState) : result Update :=
  let csv_files :=
    filter (fun f => PyStr.endswith (PyStr.lower f) ".csv") (file_paths state) in
  let* last_msg := subscript_last (messages state) in
  if isinstance last_msg ToolMessage then
    match content last_msg with
    | CList _ =>
        Raise (RuntimeError "Tool output is not a string. Tool normalization failed.")
    | CStr output =>
        let chart_path :=
          if PyStr.contains "[Chart saved to" output
          then search_group1 tool_marker_pattern output
          else None in
        let response := llm env (SummarizeCsv output) in
        let original_content := resp_content response in
        let text :=
          match chart_path with
          | Some path =>
              if negb (PyStr.contains "Chart saved to:" original_content)
              then original_content ++ String "010" (String "010" "")
                     ++ "📊 Chart saved to: " ++ path
              else original_content
          | None => original_content
          end in
        Ok (mkUpdate (Some [ai_message text (resp_tool_calls response)])
                     None None None)
    end
  else
    let* first := subscript_first (messages state) in
    let response :=
      response_message
        (llm env (GenerateCsv csv_files (content first) (messages state))) in
    if negb (has_tool_calls response)
    then Raise (RuntimeError "CSV worker failed to call python_analyst tool.")
    else Ok (mkUpdate (Some [response]) None None None).

Definition sql_worker_node (state : AgentState) : result Update :=
  let* db_file := next_db (file_paths state) in
  let db_path := join_uploads db_file in
  let* tools := get_sql_tools db_path in
  let* last_msg := subscript_last (messages state) in
  if isinstance last_msg ToolMessage then
    let* first := subscript_first (messages state) in
    let* user_query := content_lower (content first) in
    let chart_intent := has_chart_intent user_query in
    if chart_intent && has_stored_query state then
      Ok (mkUpdate (Some (messages state)) (Some "db_chart_worker") None None)
    else if chart_intent && negb (has_stored_query state) then
      Ok (mkUpdate (Some (messages state ++ [ai_message sql_error_text []])%list)
                   None None None)
    else
      let response := response_message (llm env (SummarizeSql (messages state))) in
      Ok (mkUpdate (Some [response]) None None None)
  else
    let* first := subscript_first (messages state) in
    let* user_query := content_lower (content first) in
    let chart_intent := has_chart_intent user_query in
    let response :=
      response_message
        (llm env (GenerateSql db_file (content first) chart_intent (messages state))) in
    if isinstance response AIMessage && has_tool_calls response then
      match tool_calls response with
      | call :: _ =>
          match dict_lookup (tc_args call) "query" with
          | Some sql_query =>
              Ok (mkUpdate (Some [response]) None (Some (Some sql_query)) None)
          | None => Raise (KeyError "query")
          end
      | [] => Raise IndexError
      end
    else Ok (mkUpdate (Some [response]) None None None).

Definition db_chart_worker_node (state : AgentState) : result Update :=
  match stored_query state with
  | None => Raise (RuntimeError "No SQL query found for chart generation.")
  | Some sql_query =>
      let* db_file := next_db (file_paths state) in
      let* last_msg := subscript_last (messages state) in
      if isinstance last_msg ToolMessage
         && match chart_code_generated state with Some true => true | _ => false end
      then
        let response :=
          response_message (llm env (SummarizeChart (content last_msg))) in
        Ok (mkUpdate (Some [response]) None None (Some (Some false)))
      else
        let* first := subscript_first (messages state) in
        let response :=
          response_message
            (llm env (GenerateChart db_file sql_query (content first))) in
        if negb (has_tool_calls response)
        then Raise (RuntimeError
                    ("db_chart_worker failed to call db_python_analyst tool. Response: "
                       ++ resp_content (llm env (GenerateChart db_file sql_query
                                                               (content first)))))
        else Ok (mkUpdate (Some [response]) None None (Some (Some true)))
  end.

(** [ToolNode(tools).invoke(state)]: one tool message for each call the
    latest assistant message requests. *)
Definition tool_node (state : AgentState) : result Update :=
  let* last_msg := subscript_last (messages state) in
  if isinstance last_msg AIMessage then
    Ok (mkUpdate
          (Some (map (fun call => mkMessage ToolMessage None
                                    (CStr (run_tool env call)) [])
                     (tool_calls last_msg)))
          None None None)
  else Raise (ValueError "Last message is not an AIMessage").

(** [graph.py], [call_sql_tools] *)
Definition call_sql_tools (state : AgentState) : result Update :=
  let* db_file := next_db (file_paths state) in
  let* tools := get_sql_tools db_file in
  let* tool_result := tool_node state in
  Ok (mkUpdate (u_messages tool_result) None
               (Some (last_sql_query state)) None).

End Nodes.

(* ===================================================================== *)
(** ** State merging ([state.py]: [Annotated[list, add_messages]]) *)
(* ===================================================================== *)

(** The reducer gives every message without an id a fresh one (a UUID in
    the program, the next number of a counter here), then merges the
    update into the history by id: a message whose id is already present
    replaces the one stored under it, any other is appended. *)

Definition set_id (i : nat) (m : Message) : Message :=
  mkMessage (msg_class m) (Some i) (content m) (tool_calls m).

Fixpoint assign_ids (next : nat) (ms : list Message) : list Message * nat :=
  match ms with
  | [] => ([], next)
  | m :: rest =>
      match msg_id m with
      | Some _ =>
          let (rest', next') := assign_ids next rest in (m :: rest', next')
      | None =>
          let (rest', next') := assign_ids (S next) rest in
          (set_id next m :: rest', next')
      end
  end.

Definition same_id (i : option nat) (m : Message) : bool :=
  match i, msg_id m with
  | Some a, Some b => Nat.eqb a b
  | _, _ => false
  end.

(** [merged_by_id.get(m.id)]: the index stored for an id is that of its
    last holder. *)
Fixpoint index_by_id (i : option nat) (merged : list Message) : option nat :=
  match merged with
  | [] => None
  | m :: rest =>
      match index_by_id i rest with
      | Some k => Some (S k)
      | None => if same_id i m then Some 0 else None
      end
  end.

Fixpoint replace_at {A} (k : nat) (x : A) (xs : list A) : list A :=
  match xs, k with
  | [], _ => []
  | _ :: rest, 0 => x :: rest
  | y :: rest, S k' => y :: replace_at k' x rest
  end.

Definition merge_message (merged : list Message) (m : Message) : list Message :=
  match index_by_id (msg_id m) merged with
  | Some k => replace_at k m merged
  | None => (merged ++ [m])%list
  end.

Definition add_messages (next : nat) (left right : list Message)
  : list Message * nat :=
  let (left', n1) := assign_ids next left in
  let (right', n2) := assign_ids n1 right in
  (fold_left merge_message right' left', n2).

(** The state of a run: the channels and the supply of fresh ids. *)
Record Run := mkRun {
  run_state : AgentState;
  next_id   : nat
}.

Definition overwrite {A} (old : A) (new : option A) : A :=
  match new with
  | Some v => v
  | None => old
  end.

(** Applying a node's patch: [messages] goes through its reducer, every
    other key the patch has overwrites the stored value. *)
Definition apply_update (r : Run) (u : Update) : Run :=
  let s := run_state r in
  let (msgs, next) :=
    match u_messages u with
    | Some new => add_messages (next_id r) (messages s) new
    | None => (messages s, next_id r)
    end in
  mkRun (mkState msgs
                 (file_paths s)
                 (overwrite (active_worker s) (u_active_worker u))
                 (overwrite (last_sql_query s) (u_last_sql_query u))
                 (overwrite (chart_code_generated s) (u_chart_code_generated u)))
        next.

(* ===================================================================== *)
(** ** The orchestration graph ([graph.py], [create_workflow]) *)
(* ===================================================================== *)

Inductive Node :=
| supervisor | csv_worker | sql_worker | db_chart_worker
| csv_tools | db_chart_tools | sql_tools
| END.

(** The lambda on the edges leaving [csv_worker] and [db_chart_worker]. *)
Definition wants_tools (state : AgentState) : result bool :=
  let* last := subscript_last (messages state) in
  Ok (isinstance last AIMessage && has_tool_calls last).

Definition sql_router (state : AgentState) : result Node :=
  let* last := subscript_last (messages state) in
  if isinstance last AIMessage && has_tool_calls last then Ok sql_tools
  else if String.eqb (active_worker state) "db_chart_worker" then Ok db_chart_worker
  else Ok END.

(** What [process_query] hands back: the answer record or an
    [HTTPException] with its status code and detail. *)
Inductive Detail :=
| NoDataFiles             (* [No data files found in the uploads directory.] *)
| AgentError (e : exn).   (* [Agent Error: ] followed by [str(e)] *)

Inductive Reply :=
| Answer (query : string) (active_files : list string) (answer : Content)
| HTTPException (status_code : nat) (detail : Detail).

Section Graph.
Variable env : Env.

Definition node_function (n : Node) (state : AgentState) : result Update :=
  match n with
  | supervisor => supervisor_node state
  | csv_worker => csv_worker_node env state
  | sql_worker => sql_worker_node env state
  | db_chart_worker => db_chart_worker_node env state
  | csv_tools => tool_node env state
  | db_chart_tools => tool_node env state
  | sql_tools => call_sql_tools env state
  | END => Ok no_update
  end.

(** The edges: where control goes after [n] has run and its patch has
    been applied. *)
Definition next_node (n : Node) (state : AgentState) : result Node :=
  match n with
  | supervisor =>
      let w := active_worker state in
      if String.eqb w "csv_worker" then Ok csv_worker
      else if String.eqb w "sql_worker" then Ok sql_worker
      else if String.eqb w "general" then Ok END
      else Raise (KeyError w)
  | csv_worker =>
      let* t := wants_tools state in Ok (if t then csv_tools else END)
  | csv_tools => Ok csv_worker
  | sql_worker => sql_router state
  | sql_tools => Ok sql_worker
  | db_chart_worker =>
      let* t := wants_tools state in Ok (if t then db_chart_tools else END)
  | db_chart_tools => Ok db_chart_worker
  | END => Ok END
  end.

(** One node visit. *)
Definition step (n : Node) (r : Run) : result (Node * Run) :=
  let* u := node_function n (run_state r) in
  let r' := apply_update r u in
  let* n' := next_node n (run_state r') in
  Ok (n', r').

(** The engine's loop: it visits nodes until [END] is reached and gives
    up with [GraphRecursionError] when [limit] visits did not get there.
    The visited nodes are returned with the outcome. *)
Fixpoint run_from (limit : nat) (n : Node) (r : Run)
  : list Node * result Run :=
  match n with
  | END => ([], Ok r)
  | _ =>
      match limit with
      | 0 => ([], Raise GraphRecursionError)
      | S limit' =>
          match step n r with
          | Ok (n', r') =>
              let (visited, out) := run_from limit' n' r' in
              (n :: visited, out)
          | Raise e => ([n], Raise e)
          end
      end
  end.

(** [app_graph.invoke(initial_state, config)]: the input is written to
    the empty channels, then the graph runs from its entry node. *)
Definition entry (initial_state : AgentState) : Run :=
  let (msgs, next) := add_messages 0 [] (messages initial_state) in
  mkRun (mkState msgs
                 (file_paths initial_state)
                 (active_worker initial_state)
                 (last_sql_query initial_state)
                 (chart_code_generated initial_state))
        next.

Definition invoke (initial_state : AgentState) (recursion_limit : nat)
  : list Node * result Run :=
  run_from recursion_limit supervisor (entry initial_state).

(* =================================================================== *)
(** ** The query endpoint ([main.py], [process_query]) *)
(* =================================================================== *)

(** [get_local_files] *)
Definition get_local_files : list string :=
  filter (fun f => PyStr.endswith (PyStr.lower f) ".csv"
                   || PyStr.endswith (PyStr.lower f) ".db")
         (listdir env).

Definition recursion_limit : nat := 100.

Definition initial_state (prompt : string) (files : list string) : AgentState :=
  mkState [mkMessage HumanMessage None (CStr prompt) []] files "supervisor"
          None None.

Definition process_query (prompt : string) : Reply :=
  let available_files := get_local_files in
  match available_files with
  | [] => HTTPException 400 NoDataFiles
  | _ :: _ =>
      match snd (invoke (initial_state prompt available_files) recursion_limit) with
      | Ok final_output =>
          match subscript_last (messages (run_state final_output)) with
          | Ok m => Answer prompt available_files (content m)
          | Raise e => HTTPException 500 (AgentError e)
          end
      | Raise e => HTTPException 500 (AgentError e)
      end
  end.

End Graph.

(* ===================================================================== *)
(** * Vocabulary of the properties and concrete inputs *)
(* ===================================================================== *)

(** Some file name ends, once lower-cased, in the extension [ext]. *)
Definition some_file_ends_in (ext : string) (files : list string) : Prop :=
  exists f, In f files /\ PyStr.is_suffix ext (PyStr.lower f).

(** The lower-cased text has one of the SQL keywords as a substring. *)
Definition mentions_sql_keyword (text : string) : Prop :=
  exists w, In w sql_keywords /\ PyStr.is_substring w (PyStr.lower text).

(** A request about the database with a tabular file and a database
    file at hand. *)
Definition mixed_files_state : AgentState :=
  mkState [mkMessage HumanMessage (Some 0)
                     (CStr "How many rows does the Database hold?") []]
          ["products.csv"; "shop.db"] "supervisor" None None.

(** The ids [k], [k+1], ... handed to the messages of an update. *)
Fixpoint number (k : nat) (ms : list Message) : list Message :=
  match ms with
  | [] => []
  | m :: rest => set_id k m :: number (S k) rest
  end.

(** Every message has an id, and it is below [n]. *)
Definition ids_below (n : nat) (ms : list Message) : Prop :=
  Forall (fun m => exists i, msg_id m = Some i /\ i < n) ms.

(** Two messages of the history with the same id are the same message. *)
Definition ids_identify (ms : list Message) : Prop :=
  forall m1 m2, In m1 ms -> In m2 ms -> msg_id m1 = msg_id m2 -> m1 = m2.

(** No message has an id yet. *)
Definition unnumbered (ms : list Message) : Prop :=
  Forall (fun m => msg_id m = None) ms.

(** Every stored message has an id below the next fresh one, and an id
    names one message. *)
Definition well_formed (r : Run) : Prop :=
  ids_below (next_id r) (messages (run_state r)) /\
  ids_identify (messages (run_state r)).

(** The SQL worker gets past its set-up (a database file is found and
    exists under the uploads directory) and the latest message is a tool
    result. *)
Definition post_execution_phase (env : Env) (s : AgentState) : Prop :=
  exists db_file last,
    next_db (file_paths s) = Ok db_file /\
    get_sql_tools env (join_uploads db_file) = Ok tt /\
    last_of (messages s) = Some last /\
    isinstance last ToolMessage = true.

(** The original request, lower-cased, contains one of the chart words. *)
Definition chart_intent_detected (s : AgentState) : Prop :=
  exists first text,
    subscript_first (messages s) = Ok first /\
    content first = CStr text /\
    has_chart_intent (PyStr.lower text) = true.

(** The [messages] entry of a patch, relative to the state the node saw:
    absent, a list of new messages, the stored history itself, or the
    stored history followed by one new message. *)
Inductive patch_shape (s : AgentState) : option (list Message) -> Prop :=
| shape_absent : patch_shape s None
| shape_new new : unnumbered new -> patch_shape s (Some new)
| shape_same : patch_shape s (Some (messages s))
| shape_snoc m : msg_id m = None -> patch_shape s (Some (messages s ++ [m])%list).

Ltac case_split_in H :=
  repeat match type of H with
    | context [match ?x with _ => _ end] => destruct x eqn:?; simpl in H
    | context [if ?b then _ else _] => destruct b eqn:?; simpl in H
    end.

Ltac solve_shape H :=
  first
    [ discriminate H
    | injection H as <-; cbn [u_messages];
      first [ apply shape_absent
            | apply shape_same
            | apply shape_snoc; reflexivity
            | apply shape_new; repeat constructor ] ].

(** The states a query-processing run goes through, each with the node
    about to be visited. *)
Inductive reachable (env : Env) (prompt : string) (files : list string)
  : Node -> Run -> Prop :=
| reach_entry :
    reachable env prompt files supervisor (entry (initial_state prompt files))
| reach_step n r n' r' :
    reachable env prompt files n r ->
    step env n r = Ok (n', r') ->
    reachable env prompt files n' r'.

(** The user message a run starts from, as stored by the reducer. *)
Definition originating_message (prompt : string) : Message :=
  mkMessage HumanMessage (Some 0) (CStr prompt) [].

(** The tabular worker's loop: the worker is entered on a history whose
    latest message, if a tool result, holds a string; its tool node is
    entered on an assistant message that requests a tool call. *)
Definition in_csv_loop (n : Node) (r : Run) : Prop :=
  well_formed r /\
  exists last, last_of (messages (run_state r)) = Some last /\
    ((n = csv_worker /\
      (isinstance last ToolMessage = true -> exists s, content last = CStr s)) \/
     (n = csv_tools /\
      isinstance last AIMessage = true /\ tool_calls last <> [])).

(** A model that asks for the tabular tool whatever it is sent. *)
Definition insistent_env : Env :=
  mkEnv (fun _ => mkResponse ""
                    [mkToolCall "python_analyst"
                                [("code", "print(df.mean())");
                                 ("file_name", "prices.csv")]])
        (fun _ => "3.5")
        (fun _ => true)
        ["prices.csv"; "notes.txt"].

(** A model that answers in prose and never asks for a tool. *)
Definition prose_env : Env :=
  mkEnv (fun _ => mkResponse "The database holds three tables." [])
        (fun _ => "Customers, Orders, Products")
        (fun _ => true)
        ["shop.db"].

(** The uploads directory holds the one file [SHOP.DB]. *)
Definition upper_case_db_state (worker : string) (q : option string) : AgentState :=
  mkState [originating_message "What tables are in the database?"]
          ["SHOP.DB"] worker q None.

Definition sql_tool_call (q : string) : ToolCall :=
  mkToolCall "sql_db_query" [("query", q)].

(** A chart request after the SQL worker's query [q] has been run. *)
Definition after_sql_tools (q : string) : Run :=
  mkRun (mkState [originating_message "Plot the sales of every product";
                  mkMessage AIMessage (Some 1) (CStr "") [sql_tool_call q];
                  mkMessage ToolMessage (Some 2) (CStr "[('Chai', 12)]") []]
                 ["shop.db"] "sql_worker" (Some q) None)
        3.

(** Every character of [s] is in the class [p]. *)
Fixpoint all_chars (p : ascii -> bool) (s : string) : bool :=
  match s with
  | "" => true
  | String c s' => p c && all_chars p s'
  end.

(** The character [c] occurs in [w]. *)
Fixpoint occurs (c : ascii) (w : string) : bool :=
  match w with
  | "" => false
  | String a w' => Ascii.eqb a c || occurs c w'
  end.


(** What is left of [s] once the literal [w] has been read off its
    start, characters compared by [cmp]. *)
Fixpoint lit_rest (cmp : ascii -> ascii -> bool) (w s : string) : option string :=
  match w with
  | "" => Some s
  | String a w' =>
      match s with
      | String c s' => if cmp a c then lit_rest cmp w' s' else None
      | "" => None
      end
  end.


(** A text that carries the bracket marker for [charts/x.png] after an
    earlier ["saved to:"] phrase: the earlier phrase wins. *)
Definition two_markers : string :=
  "Report saved to: out.png [Chart saved to charts/x.png]".

(* ===================================================================== *)
(** * Runs, tools and uploads: further definitions *)
(* ===================================================================== *)

(** The two analysis tools of [tools.py] and the upload endpoint of
    [main.py] are embedded here.  What a tool call observes of the world
    (whether the file is there, what the executed code printed, whether a
    figure is open, the clock, the working directory) is a record given
    to the function; the text the tool builds from it is computed as in
    the source.  [os.path] is taken on POSIX: the separator is [/]. *)

(** ** Runs and the models that drive them *)

(** The state the router leaves when it picks [worker] for [prompt]. *)
Definition routed (prompt : string) (files : list string) (worker : string) : Run :=
  mkRun (mkState [originating_message prompt] files worker None None) 1.


(** The database file is listed but not found under [uploads/]. *)
Definition missing_db_env : Env :=
  mkEnv (llm prose_env) (run_tool prose_env) (fun _ => false) ["shop.db"].

(** A tabular file with a model that answers in prose. *)
Definition prose_csv_env : Env :=
  mkEnv (llm prose_env) (run_tool prose_env) (fun _ => true) ["prices.csv"].
(** A model that writes a query for the SQL tool, plotting code for the
    chart tool, and prose when it sums up. *)
Definition chart_env : Env :=
  mkEnv (fun c =>
           match c with
           | GenerateSql _ _ _ _ =>
               mkResponse "" [mkToolCall "sql_db_query"
                                         [("query", "SELECT name, total FROM sales")]]
           | GenerateChart db_file sql_query _ =>
               mkResponse "" [mkToolCall "db_python_analyst"
                                         [("code", "plt.bar(df.name, df.total)");
                                          ("db_file", db_file);
                                          ("sql_query", sql_query)]]
           | _ => mkResponse "Here is the result." []
           end)
        (fun _ => "[('Chai', 12)]")
        (fun _ => true)
        ["shop.db"].

(** Some assistant message of the history asks, in its first tool call,
    for the query [q]. *)
Definition issued_by_model (q : string) (ms : list Message) : Prop :=
  exists m call rest,
    In m ms /\ msg_class m = AIMessage /\
    tool_calls m = (call :: rest)%list /\
    dict_lookup (tc_args call) "query" = Some q.







(** *** The tools ([tools.py]) *)

(** [s.rsplit(sep, 1)]: the parts before and after the last [sep]. *)
Fixpoint split_last (sep : ascii) (s : string) : option (string * string) :=
  match s with
  | "" => None
  | String c s' =>
      match split_last sep s' with
      | Some (a, b) => Some (String c a, b)
      | None => if Ascii.eqb c sep then Some ("", s') else None
      end
  end.

Definition is_period (c : ascii) : bool := Ascii.eqb c ".".

(** [os.path.splitext(p)[0]]: the extension starts at the last period of
    the last path component, unless only periods come before it. *)
Definition splitext_root (p : string) : string :=
  let (dir, name) :=
    match split_last "/" p with
    | Some (d, n) => (d ++ "/", n)
    | None => ("", p)
    end in
  match split_last "." name with
  | Some (stem, _) => if all_chars is_period stem then p else dir ++ stem
  | None => p
  end.









(** A character of the time stamp: a digit or an underscore. *)
Definition stamp_char (c : ascii) : bool := PyStr.is_digit c || Ascii.eqb c "_".




(** *** Uploading ([main.py]) *)

(** What [upload_files] hands back: the message with the tracked names,
    or an [HTTPException] naming the file that could not be saved. *)
Inductive UploadReply :=
| Uploaded (current_files : list string)
| SavingFailed (status_code : nat) (filename : string) (e : exn).

(** [x in xs] on a list of strings *)
Definition py_in (x : string) (xs : list string) : bool :=
  existsb (String.eqb x) xs.

(** [upload_files]: [save name] stands for writing the upload [name] into
    the uploads directory. The result is the module-level [session_files]
    after the call, with the reply. *)
Fixpoint upload_files (save : string -> result unit)
         (session_files filenames : list string) : list string * UploadReply :=
  match filenames with
  | [] => (session_files, Uploaded session_files)
  | filename :: rest =>
      match save filename with
      | Ok _ =>
          let session_files :=
            if negb (py_in filename session_files)
            then (session_files ++ [filename])%list
            else session_files in
          upload_files save session_files rest
      | Raise e => (session_files, SavingFailed 500 filename e)
      end
  end.

Definition disk_full_after (ok : list string) (name : string) : result unit :=
  if py_in name ok then Ok tt else Raise (RuntimeError "No space left on device").

(* ===================================================================== *)
(** * Properties *)
(* ===================================================================== *)

(** ** String tests against their Prop-level readings *)

Lemma startswith_spec (s p : string) :
  PyStr.startswith s p = true <-> PyStr.is_prefix p s.
Proof.
  unfold PyStr.is_prefix. revert s.
  induction p as [|a p IH]; intros s; simpl.
  - split; [intros _; exists s; reflexivity | reflexivity].
  - destruct s as [|b s]; simpl.
    + split; [discriminate | intros [t Ht]; discriminate].
    + rewrite andb_true_iff, Ascii.eqb_eq, IH. split.
      * intros [-> [t ->]]. exists t. reflexivity.
      * intros [t Ht]. injection Ht as -> ->. split; [reflexivity | eauto].
Qed.

Lemma endswith_spec (s suf : string) :
  PyStr.endswith s suf = true <-> PyStr.is_suffix suf s.
Proof.
  unfold PyStr.is_suffix.
  induction s as [|c s IH].
  - cbn [PyStr.endswith]. rewrite orb_false_r, String.eqb_eq. split.
    + intros <-. exists "". reflexivity.
    + intros [a Ha]. destruct a; simpl in Ha; [assumption | discriminate].
  - cbn [PyStr.endswith]. rewrite orb_true_iff, String.eqb_eq, IH. split.
    + intros [<- | [a ->]]; [exists "" | exists (String c a)]; reflexivity.
    + intros [a Ha]. destruct a as [|c' a]; simpl in Ha.
      * left. assumption.
      * injection Ha as -> ->. right. eauto.
Qed.

Lemma contains_spec (w s : string) :
  PyStr.contains w s = true <-> PyStr.is_substring w s.
Proof.
  unfold PyStr.is_substring.
  induction s as [|c s IH].
  - cbn [PyStr.contains]. rewrite orb_false_r, startswith_spec. split.
    + intros [t Ht]. exists "", t. assumption.
    + intros [a [b Hab]]. destruct a; simpl in Hab; [|discriminate].
      exists b. assumption.
  - cbn [PyStr.contains]. rewrite orb_true_iff, startswith_spec, IH. split.
    + intros [[t Ht] | [a [b ->]]].
      * exists "", t. assumption.
      * exists (String c a), b. reflexivity.
    + intros [a [b Hab]]. destruct a as [|c' a]; simpl in Hab.
      * left. exists b. assumption.
      * injection Hab as -> ->. right. eauto.
Qed.

Lemma existsb_spec {A} (f : A -> bool) (P : A -> Prop) (xs : list A) :
  (forall x, f x = true <-> P x) ->
  existsb f xs = true <-> exists x, In x xs /\ P x.
Proof.
  intros H. rewrite existsb_exists. split; intros [x [Hin Hx]]; exists x;
    (split; [assumption | apply H; assumption]).
Qed.

Lemma last_of_app {A} (xs : list A) (x : A) : last_of (xs ++ [x]) = Some x.
Proof. unfold last_of. rewrite rev_app_distr. reflexivity. Qed.

(** ** The router *)

Lemma has_db_spec files : has_db files = true <-> some_file_ends_in db_ext files.
Proof. apply existsb_spec. intros f. apply endswith_spec. Qed.

Lemma has_csv_spec files : has_csv files = true <-> some_file_ends_in csv_ext files.
Proof. apply existsb_spec. intros f. apply endswith_spec. Qed.

Lemma has_sql_keyword_spec text :
  has_sql_keyword (PyStr.lower text) = true <-> mentions_sql_keyword text.
Proof. apply existsb_spec. intros w. apply contains_spec. Qed.

(** The early exit tests the [type] attribute against ["assistant"], a
    value no message class carries. *)
Lemma early_exit_never_taken (m : Message) :
  String.eqb (msg_type m) "assistant" && negb (has_tool_calls m) = false.
Proof. unfold msg_type. destruct (msg_class m); reflexivity. Qed.

Lemma supervisor_node_routes state init last text :
  messages state = (init ++ [last])%list ->
  text_query (content last) = Ok text ->
  supervisor_node state =
    Ok (route (if has_db (file_paths state) && has_sql_keyword (PyStr.lower text)
               then "sql_worker"
               else if has_csv (file_paths state) then "csv_worker"
               else "general")).
Proof.
  intros Hm Ht. unfold supervisor_node.
  rewrite Hm, last_of_app, early_exit_never_taken, Ht. simpl.
  destruct (has_db (file_paths state) && has_sql_keyword (PyStr.lower text));
    [reflexivity|].
  destruct (has_csv (file_paths state)); reflexivity.
Qed.

(** C1. Router policy: on a non-empty history whose latest message
    carries the text [text], the supervisor selects the SQL worker exactly
    when some file name ends in the database extension and the lower-cased
    text contains an SQL keyword, whatever tabular files are present;
    failing that it selects the tabular worker exactly when some file name
    ends in the CSV extension; failing both it routes to ["general"]. *)
Theorem supervisor_policy state init last text :
  messages state = (init ++ [last])%list ->
  text_query (content last) = Ok text ->
  let sql := some_file_ends_in db_ext (file_paths state)
             /\ mentions_sql_keyword text in
  let tabular := some_file_ends_in csv_ext (file_paths state) in
  (supervisor_node state = Ok (route "sql_worker") <-> sql) /\
  (~ sql -> (supervisor_node state = Ok (route "csv_worker") <-> tabular)) /\
  (~ sql -> ~ tabular -> supervisor_node state = Ok (route "general")).
Proof.
  intros Hm Ht sql tabular.
  rewrite (supervisor_node_routes state init last text Hm Ht).
  assert (Hsql : has_db (file_paths state) && has_sql_keyword (PyStr.lower text)
                 = true <-> sql).
  { rewrite andb_true_iff, has_db_spec, has_sql_keyword_spec. reflexivity. }
  pose proof (has_csv_spec (file_paths state)) as Hcsv. fold tabular in Hcsv.
  destruct (has_db (file_paths state) && has_sql_keyword (PyStr.lower text)).
  - assert (Hs : sql) by (apply Hsql; reflexivity).
    split; [split; [intros _; exact Hs | reflexivity]|].
    split; intros Hn; contradiction.
  - assert (Hs : ~ sql) by (intros H; apply Hsql in H; discriminate).
    destruct (has_csv (file_paths state)).
    + assert (Hc : tabular) by (apply Hcsv; reflexivity).
      split; [split; [discriminate | intros H; contradiction]|].
      split; [intros _; split; [intros _; exact Hc | reflexivity]|].
      intros _ Hn. contradiction.
    + assert (Hc : ~ tabular) by (intros H'; apply Hcsv in H'; discriminate).
      split; [split; [discriminate | intros H; contradiction]|].
      split; [intros _; split; [discriminate | intros H; contradiction]|].
      reflexivity.
Qed.

Lemma supervisor_policy_witness :
  supervisor_node mixed_files_state = Ok (route "sql_worker").
Proof.
  refine (proj2 (proj1 (supervisor_policy mixed_files_state []
            (mkMessage HumanMessage (Some 0)
                       (CStr "How many rows does the Database hold?") [])
            "How many rows does the Database hold?" _ _)) _).
  - reflexivity.
  - reflexivity.
  - split.
    + exists "shop.db". split; [simpl; tauto | exists "shop"; reflexivity].
    + exists "database". split; [simpl; tauto|].
      exists "how many rows does the ", " hold?". reflexivity.
Defined.

Lemma supervisor_no_messages state :
  messages state = [] -> supervisor_node state = Ok (route "general").
Proof. intros H. unfold supervisor_node. rewrite H. reflexivity. Qed.

(** C2. On a history that ends with an assistant message without tool
    calls the supervisor does not stop: it goes on to the keyword test
    and, with a database file at hand, selects the SQL worker. *)
Theorem supervisor_assistant_message_routed :
  supervisor_node
    (mkState [mkMessage HumanMessage (Some 0) (CStr "hello") [];
              mkMessage AIMessage (Some 1)
                        (CStr "Ask me about any table of the database.") []]
             ["shop.db"] "supervisor" None None)
  = Ok (route "sql_worker").
Proof. reflexivity. Qed.



(** ** The reducer on histories whose ids it has issued *)

Lemma ids_below_weaken n n' ms : n <= n' -> ids_below n ms -> ids_below n' ms.
Proof.
  intros Hle H. eapply Forall_impl; [|exact H].
  intros m [i [Hi Hlt]]. exists i. split; [assumption | lia].
Qed.

Lemma assign_ids_numbered k ms : ids_below k ms -> forall n, assign_ids n ms = (ms, n).
Proof.
  induction 1 as [|m rest [i [Hi _]] _ IH]; intros n; simpl.
  - reflexivity.
  - rewrite Hi, IH. reflexivity.
Qed.

Lemma assign_ids_unnumbered ms :
  unnumbered ms -> forall n, assign_ids n ms = (number n ms, n + length ms).
Proof.
  induction 1 as [|m rest Hm _ IH]; intros n; simpl.
  - rewrite Nat.add_0_r. reflexivity.
  - rewrite Hm, IH. f_equal. lia.
Qed.

Lemma assign_ids_app k ms m :
  ids_below k ms -> msg_id m = None ->
  forall n, assign_ids n (ms ++ [m]) = ((ms ++ [set_id n m])%list, S n).
Proof.
  induction 1 as [|m0 rest [i [Hi _]] _ IH]; intros Hm n; simpl.
  - rewrite Hm. reflexivity.
  - rewrite Hi, IH by assumption. reflexivity.
Qed.

Lemma index_by_id_none i ms :
  Forall (fun m => same_id i m = false) ms -> index_by_id i ms = None.
Proof.
  induction 1 as [|m rest Hm _ IH]; simpl; [reflexivity|].
  rewrite IH, Hm. reflexivity.
Qed.

Lemma index_by_id_some i ms k :
  index_by_id i ms = Some k ->
  exists m, nth_error ms k = Some m /\ same_id i m = true.
Proof.
  revert k. induction ms as [|m0 rest IH]; intros k; simpl; [discriminate|].
  destruct (index_by_id i rest) as [j|] eqn:Hj.
  - intros [= <-]. simpl. apply IH. reflexivity.
  - destruct (same_id i m0) eqn:Hs; [|discriminate].
    intros [= <-]. exists m0. split; [reflexivity | assumption].
Qed.

Lemma index_by_id_present m ms :
  In m ms -> (exists i, msg_id m = Some i) ->
  exists k, index_by_id (msg_id m) ms = Some k.
Proof.
  intros Hin [i Hi].
  destruct (index_by_id (msg_id m) ms) as [k|] eqn:Hk; [eauto|].
  exfalso. revert Hin Hk. induction ms as [|m0 rest IH]; simpl; [tauto|].
  destruct (index_by_id (msg_id m) rest) as [j|] eqn:Hj; [discriminate|].
  intros [-> | Hin].
  - unfold same_id. rewrite Hi, Nat.eqb_refl. discriminate.
  - intros _. apply IH; [assumption | reflexivity].
Qed.

Lemma same_id_eq m1 m2 : same_id (msg_id m1) m2 = true -> msg_id m1 = msg_id m2.
Proof.
  unfold same_id. destruct (msg_id m1), (msg_id m2); try discriminate.
  intros H. apply Nat.eqb_eq in H. congruence.
Qed.

Lemma replace_at_same {A} (xs : list A) k x :
  nth_error xs k = Some x -> replace_at k x xs = xs.
Proof.
  revert k. induction xs as [|y rest IH]; intros [|k]; simpl; try discriminate.
  - intros [= ->]. reflexivity.
  - intros H. rewrite IH by assumption. reflexivity.
Qed.

Lemma merge_message_fresh n ms m k :
  ids_below n ms -> msg_id m = Some k -> n <= k ->
  merge_message ms m = (ms ++ [m])%list.
Proof.
  intros Hb Hk Hle. unfold merge_message.
  rewrite index_by_id_none; [reflexivity|].
  eapply Forall_impl; [|exact Hb].
  intros m0 [i [Hi Hlt]]. unfold same_id. rewrite Hk, Hi.
  apply Nat.eqb_neq. lia.
Qed.

Lemma merge_message_self ms m :
  ids_identify ms -> In m ms -> (exists i, msg_id m = Some i) ->
  merge_message ms m = ms.
Proof.
  intros Hid Hin Hsome. unfold merge_message.
  destruct (index_by_id_present m ms Hin Hsome) as [k Hk]. rewrite Hk.
  destruct (index_by_id_some _ _ _ Hk) as [m' [Hnth Hsame]].
  apply replace_at_same.
  rewrite Hnth. f_equal. symmetry. apply Hid.
  - assumption.
  - eapply nth_error_In. eassumption.
  - apply same_id_eq. assumption.
Qed.

Lemma fold_merge_self n ms xs :
  ids_below n ms -> ids_identify ms -> incl xs ms ->
  fold_left merge_message xs ms = ms.
Proof.
  intros Hb Hid. induction xs as [|x rest IH]; intros Hincl; simpl.
  - reflexivity.
  - rewrite merge_message_self.
    + apply IH. intros y Hy. apply Hincl. right. assumption.
    + assumption.
    + apply Hincl. left. reflexivity.
    + assert (Hx : In x ms) by (apply Hincl; left; reflexivity).
      unfold ids_below in Hb. rewrite Forall_forall in Hb.
      destruct (Hb x Hx) as [i [Hi _]]. eauto.
Qed.

Lemma ids_below_snoc n ms m :
  ids_below n ms -> ids_below (S n) (ms ++ [set_id n m]).
Proof.
  intros H. apply Forall_app. split.
  - eapply ids_below_weaken; [|exact H]. lia.
  - constructor; [|constructor]. exists n. split; [reflexivity | lia].
Qed.

Lemma fold_merge_fresh new : forall n ms,
  ids_below n ms ->
  fold_left merge_message (number n new) ms = (ms ++ number n new)%list.
Proof.
  induction new as [|m rest IH]; intros n ms Hb; simpl.
  - rewrite app_nil_r. reflexivity.
  - rewrite (merge_message_fresh n ms (set_id n m) n Hb eq_refl (le_n n)).
    rewrite IH by (apply ids_below_snoc; assumption).
    rewrite <- app_assoc. reflexivity.
Qed.

(** A patch of new messages is appended under fresh ids. *)
Lemma add_messages_fresh n ms new :
  ids_below n ms -> unnumbered new ->
  add_messages n ms new = ((ms ++ number n new)%list, n + length new).
Proof.
  intros Hb Hnew. unfold add_messages.
  rewrite (assign_ids_numbered n ms Hb), (assign_ids_unnumbered new Hnew).
  rewrite fold_merge_fresh by assumption. reflexivity.
Qed.

(** A patch that carries the stored history back leaves it as it is. *)
Lemma add_messages_self n ms :
  ids_below n ms -> ids_identify ms -> add_messages n ms ms = (ms, n).
Proof.
  intros Hb Hid. unfold add_messages.
  rewrite !(assign_ids_numbered n ms Hb).
  rewrite (fold_merge_self n ms ms Hb Hid (incl_refl ms)). reflexivity.
Qed.

(** A patch made of the stored history and one new message appends the
    new message. *)
Lemma add_messages_self_snoc n ms m :
  ids_below n ms -> ids_identify ms -> msg_id m = None ->
  add_messages n ms (ms ++ [m]) = ((ms ++ [set_id n m])%list, S n).
Proof.
  intros Hb Hid Hm. unfold add_messages.
  rewrite (assign_ids_numbered n ms Hb), (assign_ids_app n ms m Hb Hm).
  rewrite fold_left_app.
  rewrite (fold_merge_self n ms ms Hb Hid (incl_refl ms)). simpl.
  rewrite (merge_message_fresh n ms (set_id n m) n Hb eq_refl (le_n n)).
  reflexivity.
Qed.

Lemma ids_below_number new : forall n ms,
  ids_below n ms -> ids_below (n + length new) (ms ++ number n new).
Proof.
  induction new as [|m rest IH]; intros n ms Hb; simpl.
  - rewrite Nat.add_0_r, app_nil_r. assumption.
  - replace (ms ++ set_id n m :: number (S n) rest)%list
      with ((ms ++ [set_id n m]) ++ number (S n) rest)%list
      by (rewrite <- app_assoc; reflexivity).
    replace (n + S (length rest)) with (S n + length rest) by lia.
    apply IH. apply ids_below_snoc. assumption.
Qed.

Lemma ids_identify_snoc n ms m :
  ids_below n ms -> ids_identify ms -> ids_identify (ms ++ [set_id n m]).
Proof.
  intros Hb Hid m1 m2 H1 H2 Heq.
  unfold ids_below in Hb. rewrite Forall_forall in Hb.
  apply in_app_or in H1. apply in_app_or in H2.
  destruct H1 as [H1 | [<- | []]], H2 as [H2 | [<- | []]].
  - apply Hid; assumption.
  - destruct (Hb m1 H1) as [i [Hi Hlt]]. rewrite Hi in Heq. simpl in Heq.
    injection Heq as ->. lia.
  - destruct (Hb m2 H2) as [i [Hi Hlt]]. rewrite Hi in Heq. simpl in Heq.
    injection Heq as ->. lia.
  - reflexivity.
Qed.

Lemma ids_identify_number new : forall n ms,
  ids_below n ms -> ids_identify ms -> ids_identify (ms ++ number n new).
Proof.
  induction new as [|m rest IH]; intros n ms Hb Hid; simpl.
  - rewrite app_nil_r. assumption.
  - replace (ms ++ set_id n m :: number (S n) rest)%list
      with ((ms ++ [set_id n m]) ++ number (S n) rest)%list
      by (rewrite <- app_assoc; reflexivity).
    apply IH.
    + apply ids_below_snoc. assumption.
    + eapply ids_identify_snoc; eassumption.
Qed.

Lemma apply_update_active r u :
  active_worker (run_state (apply_update r u))
  = overwrite (active_worker (run_state r)) (u_active_worker u).
Proof.
  unfold apply_update. destruct (u_messages u) as [new|].
  - destruct (add_messages _ _ new). reflexivity.
  - reflexivity.
Qed.

Lemma run_from_step env limit n r n' r' :
  n <> END -> step env n r = Ok (n', r') ->
  run_from env (S limit) n r
  = (n :: fst (run_from env limit n' r'), snd (run_from env limit n' r')).
Proof.
  intros Hn Hstep. destruct n; try contradiction; simpl; rewrite Hstep;
    destruct (run_from env limit n' r'); reflexivity.
Qed.

(** ** The SQL worker after a tool result *)

Lemma sql_worker_post_execution env s :
  post_execution_phase env s -> chart_intent_detected s ->
  sql_worker_node env s =
    if has_stored_query s
    then Ok (mkUpdate (Some (messages s)) (Some "db_chart_worker") None None)
    else Ok (mkUpdate (Some (messages s ++ [ai_message sql_error_text []])%list)
                      None None None).
Proof.
  intros [db_file [last [Hdb [Htools [Hlast Htool]]]]] [first [text [Hf [Hc Hi]]]].
  unfold sql_worker_node, subscript_last.
  rewrite Hdb. simpl. rewrite Htools. simpl. rewrite Hlast. simpl.
  rewrite Htool, Hf. simpl. rewrite Hc. simpl. rewrite Hi.
  destruct (has_stored_query s); reflexivity.
Qed.

(** C4. Hand-off to the chart worker: when the SQL worker's
    post-execution phase runs, the original request shows chart intent and
    an SQL statement is stored, the worker's patch sets [active_worker] to
    the chart worker and does not write [last_sql_query]; after the patch
    is applied the stored statement and the history are what they were,
    and [sql_router] sends control to the chart worker. *)
Theorem sql_chart_handoff env r q :
  well_formed r ->
  post_execution_phase env (run_state r) ->
  chart_intent_detected (run_state r) ->
  stored_query (run_state r) = Some q ->
  exists u,
    sql_worker_node env (run_state r) = Ok u /\
    u_active_worker u = Some "db_chart_worker" /\
    u_last_sql_query u = None /\
    let r' := apply_update r u in
    active_worker (run_state r') = "db_chart_worker" /\
    last_sql_query (run_state r') = last_sql_query (run_state r) /\
    stored_query (run_state r') = Some q /\
    messages (run_state r') = messages (run_state r) /\
    sql_router (run_state r') = Ok db_chart_worker.
Proof.
  intros [Hb Hid] Hphase Hintent Hq.
  eexists. split.
  { rewrite (sql_worker_post_execution env _ Hphase Hintent).
    unfold has_stored_query. rewrite Hq. reflexivity. }
  split; [reflexivity|]. split; [reflexivity|].
  unfold apply_update. cbn [u_messages u_active_worker u_last_sql_query
                            u_chart_code_generated overwrite].
  rewrite (add_messages_self _ _ Hb Hid).
  cbn [run_state active_worker last_sql_query messages].
  split; [reflexivity|]. split; [reflexivity|].
  split; [unfold stored_query in *; exact Hq|].
  split; [reflexivity|].
  destruct Hphase as [db_file [last [_ [_ [Hlast Htool]]]]].
  unfold sql_router, subscript_last. cbn [messages active_worker].
  rewrite Hlast. simpl.
  unfold isinstance in *. destruct (msg_class last); try discriminate.
  reflexivity.
Qed.


(** ** What a node's patch does to the history *)

Lemma bind_ok {A B} (x : result A) (k : A -> result B) (b : B) :
  bind x k = Ok b -> exists a, x = Ok a /\ k a = Ok b.
Proof. destruct x; simpl; [eauto | discriminate]. Qed.

Lemma supervisor_shape s u :
  supervisor_node s = Ok u -> patch_shape s (u_messages u).
Proof.
  unfold supervisor_node. intros H.
  destruct (last_of (messages s)); [|solve_shape H].
  destruct (_ && _); [solve_shape H|].
  apply bind_ok in H. destruct H as [text [_ H]].
  case_split_in H; solve_shape H.
Qed.

Lemma csv_worker_shape env s u :
  csv_worker_node env s = Ok u -> patch_shape s (u_messages u).
Proof.
  unfold csv_worker_node. intros H.
  apply bind_ok in H. destruct H as [last [_ H]].
  destruct (isinstance last ToolMessage).
  - destruct (content last); solve_shape H.
  - apply bind_ok in H. destruct H as [first [_ H]].
    destruct (negb _); solve_shape H.
Qed.

Lemma sql_worker_shape env s u :
  sql_worker_node env s = Ok u -> patch_shape s (u_messages u).
Proof.
  unfold sql_worker_node. intros H.
  apply bind_ok in H. destruct H as [db_file [_ H]].
  apply bind_ok in H. destruct H as [tools [_ H]].
  apply bind_ok in H. destruct H as [last [_ H]].
  destruct (isinstance last ToolMessage);
    apply bind_ok in H; destruct H as [first [_ H]];
    apply bind_ok in H; destruct H as [user_query [_ H]].
  - destruct (_ && has_stored_query s); [solve_shape H|].
    destruct (_ && negb _); solve_shape H.
  - destruct (_ && _); [|solve_shape H].
    destruct (tool_calls _) as [|call calls]; [solve_shape H|].
    destruct (dict_lookup _ _); solve_shape H.
Qed.

Lemma db_chart_worker_shape env s u :
  db_chart_worker_node env s = Ok u -> patch_shape s (u_messages u).
Proof.
  unfold db_chart_worker_node. intros H.
  destruct (stored_query s); [|solve_shape H].
  apply bind_ok in H. destruct H as [db_file [_ H]].
  apply bind_ok in H. destruct H as [last [_ H]].
  destruct (_ && _); [solve_shape H|].
  apply bind_ok in H. destruct H as [first [_ H]].
  destruct (negb _); solve_shape H.
Qed.

Lemma tool_messages_unnumbered env calls :
  unnumbered (map (fun call => mkMessage ToolMessage None
                                 (CStr (run_tool env call)) []) calls).
Proof.
  unfold unnumbered.
  induction calls; simpl; constructor; [reflexivity | assumption].
Qed.

Lemma tool_node_shape env s u :
  tool_node env s = Ok u -> patch_shape s (u_messages u).
Proof.
  unfold tool_node. intros H.
  apply bind_ok in H. destruct H as [last [_ H]].
  destruct (isinstance last AIMessage); [|discriminate H].
  injection H as <-. apply shape_new. apply tool_messages_unnumbered.
Qed.

Lemma call_sql_tools_shape env s u :
  call_sql_tools env s = Ok u -> patch_shape s (u_messages u).
Proof.
  unfold call_sql_tools. intros H.
  apply bind_ok in H. destruct H as [db_file [_ H]].
  apply bind_ok in H. destruct H as [tools [_ H]].
  apply bind_ok in H. destruct H as [tool_result [Ht H]].
  injection H as <-. cbn [u_messages].
  exact (tool_node_shape env s tool_result Ht).
Qed.

Lemma node_patch_shape env n s u :
  node_function env n s = Ok u -> patch_shape s (u_messages u).
Proof.
  destruct n; simpl.
  - apply supervisor_shape.
  - apply csv_worker_shape.
  - apply sql_worker_shape.
  - apply db_chart_worker_shape.
  - apply tool_node_shape.
  - apply tool_node_shape.
  - apply call_sql_tools_shape.
  - intros [= <-]. apply shape_absent.
Qed.

(** Applying a patch of one of these shapes extends the history at its
    end and keeps the ids in order. *)
Lemma apply_update_appends r u :
  well_formed r -> patch_shape (run_state r) (u_messages u) ->
  (exists new,
      messages (run_state (apply_update r u)) = (messages (run_state r) ++ new)%list)
  /\ well_formed (apply_update r u).
Proof.
  intros [Hb Hid] Hshape. unfold apply_update, well_formed.
  inversion Hshape as [Hu | new Hnew Hu | Hu | m Hm Hu]; clear Hshape.
  - cbn [run_state messages next_id].
    split; [exists []; rewrite app_nil_r; reflexivity | split; assumption].
  - rewrite (add_messages_fresh _ _ _ Hb Hnew). cbn [run_state messages next_id].
    split; [eauto|]. split.
    + apply ids_below_number. assumption.
    + apply ids_identify_number; assumption.
  - rewrite (add_messages_self _ _ Hb Hid). cbn [run_state messages next_id].
    split; [exists []; rewrite app_nil_r; reflexivity | split; assumption].
  - rewrite (add_messages_self_snoc _ _ _ Hb Hid Hm).
    cbn [run_state messages next_id].
    split; [eauto|]. split.
    + apply ids_below_snoc. assumption.
    + eapply ids_identify_snoc; eassumption.
Qed.

Lemma step_appends env n r n' r' :
  well_formed r -> step env n r = Ok (n', r') ->
  (exists new, messages (run_state r') = (messages (run_state r) ++ new)%list)
  /\ well_formed r'.
Proof.
  intros Hwf H. unfold step in H.
  apply bind_ok in H. destruct H as [u [Hu H]].
  apply bind_ok in H. destruct H as [nxt [_ H]].
  injection H as <- <-.
  apply apply_update_appends; [assumption|].
  eapply node_patch_shape. eassumption.
Qed.

(** ** Runs of the graph *)

Lemma reachable_invariant env prompt files n r :
  reachable env prompt files n r ->
  well_formed r /\
  exists rest, messages (run_state r) = originating_message prompt :: rest.
Proof.
  induction 1 as [|n r n' r' _ [Hwf [rest Hrest]] Hstep].
  - split.
    + split; cbn.
      * constructor; [|constructor]. exists 0. split; [reflexivity | lia].
      * intros m1 m2 [<- | []] [<- | []] _. reflexivity.
    + exists []. reflexivity.
  - destruct (step_appends env n r n' r' Hwf Hstep) as [[new Hnew] Hwf'].
    split; [assumption|].
    exists (rest ++ new)%list. rewrite Hnew, Hrest. reflexivity.
Qed.

(** C7. First-message invariant: in every state a run reaches, the
    history starts with the originating user message, its text unchanged;
    and every router, worker or tool step taken from such a state leaves
    the stored history in place and only adds messages at its end. *)
Theorem first_message_invariant env prompt files n r :
  reachable env prompt files n r ->
  (exists rest,
      messages (run_state r) = originating_message prompt :: rest) /\
  (forall n' r',
      step env n r = Ok (n', r') ->
      exists new,
        messages (run_state r') = (messages (run_state r) ++ new)%list).
Proof.
  intros Hreach.
  destruct (reachable_invariant env prompt files n r Hreach) as [Hwf Hfirst].
  split; [assumption|].
  intros n' r' Hstep.
  destruct (step_appends env n r n' r' Hwf Hstep) as [Hnew _]. assumption.
Qed.

(** The final state of a run that ends is one of the reachable states. *)
Lemma run_from_reachable env prompt files limit : forall n r final,
  reachable env prompt files n r ->
  snd (run_from env limit n r) = Ok final ->
  reachable env prompt files END final.
Proof.
  induction limit as [|limit IH]; intros n r final Hreach Hrun.
  - destruct n; simpl in Hrun; try discriminate Hrun.
    injection Hrun as <-. assumption.
  - destruct n; simpl in Hrun;
      try (destruct (step env _ r) as [[n' r']|e] eqn:Hstep;
           [ destruct (run_from env limit n' r') as [visited out] eqn:Hrest;
             simpl in Hrun; apply (IH n' r'); [eapply reach_step; eassumption|];
             rewrite Hrest; assumption
           | discriminate Hrun ]).
    injection Hrun as <-. assumption.
Qed.

Lemma invoke_keeps_first_message env prompt files limit final :
  snd (invoke env (initial_state prompt files) limit) = Ok final ->
  exists rest, messages (run_state final) = originating_message prompt :: rest.
Proof.
  intros H.
  apply (reachable_invariant env prompt files END final).
  eapply run_from_reachable; [apply reach_entry | exact H].
Qed.

(** ** The active worker while the SQL worker runs *)

Lemma sql_worker_active env s u :
  sql_worker_node env s = Ok u ->
  u_active_worker u = None \/
  (u_messages u = Some (messages s) /\
   exists last, last_of (messages s) = Some last /\
                isinstance last ToolMessage = true).
Proof.
  unfold sql_worker_node, subscript_last. intros H.
  apply bind_ok in H. destruct H as [db_file [_ H]].
  apply bind_ok in H. destruct H as [tools [_ H]].
  apply bind_ok in H. destruct H as [last [Hlast H]].
  destruct (last_of (messages s)) as [l|] eqn:Hl; [|discriminate Hlast].
  injection Hlast as ->.
  destruct (isinstance last ToolMessage) eqn:Htool;
    apply bind_ok in H; destruct H as [first [_ H]];
    apply bind_ok in H; destruct H as [user_query [_ H]].
  - destruct (_ && has_stored_query s).
    + injection H as <-. right. split; [reflexivity | eauto].
    + destruct (_ && negb _); injection H as <-; left; reflexivity.
  - destruct (_ && _); [|injection H as <-; left; reflexivity].
    destruct (tool_calls _) as [|call calls]; [discriminate H|].
    destruct (dict_lookup _ _); [|discriminate H].
    injection H as <-. left. reflexivity.
Qed.

Lemma tool_node_active env s u : tool_node env s = Ok u -> u_active_worker u = None.
Proof.
  unfold tool_node. intros H.
  apply bind_ok in H. destruct H as [last [_ H]].
  destruct (isinstance last AIMessage); [|discriminate H].
  injection H as <-. reflexivity.
Qed.

Lemma call_sql_tools_active env s u :
  call_sql_tools env s = Ok u -> u_active_worker u = None.
Proof.
  unfold call_sql_tools. intros H.
  apply bind_ok in H. destruct H as [db_file [_ H]].
  apply bind_ok in H. destruct H as [tools [_ H]].
  apply bind_ok in H. destruct H as [tool_result [_ H]].
  injection H as <-. reflexivity.
Qed.

(** Whenever a run is about to visit the SQL worker or its tool node,
    the router's choice of the SQL worker is still in [active_worker]. *)
Lemma reachable_sql_active env prompt files n r :
  reachable env prompt files n r ->
  n = sql_worker \/ n = sql_tools ->
  active_worker (run_state r) = "sql_worker".
Proof.
  induction 1 as [|n r n' r' Hreach IH Hstep]; intros Hn'.
  - destruct Hn'; discriminate.
  - destruct (reachable_invariant _ _ _ _ _ Hreach) as [[Hb Hid] _].
    unfold step in Hstep.
    apply bind_ok in Hstep. destruct Hstep as [u [Hu Hstep]].
    apply bind_ok in Hstep. destruct Hstep as [nxt [Hnext Hstep]].
    injection Hstep as -> <-.
    destruct n; simpl in Hu, Hnext.
    + (* supervisor *)
      destruct (String.eqb _ "csv_worker");
        [injection Hnext as <-; destruct Hn'; discriminate|].
      destruct (String.eqb _ "sql_worker") eqn:Hsql.
      * apply String.eqb_eq in Hsql. assumption.
      * destruct (String.eqb _ "general");
          [injection Hnext as <-; destruct Hn'; discriminate | discriminate Hnext].
    + (* csv_worker *)
      apply bind_ok in Hnext. destruct Hnext as [t [_ Hnext]].
      injection Hnext as <-. destruct t, Hn'; discriminate.
    + (* sql_worker *)
      rewrite apply_update_active.
      destruct (sql_worker_active env _ _ Hu) as [-> | [Hmsgs [last [Hlast Htool]]]].
      * apply IH. left. reflexivity.
      * exfalso. unfold sql_router, subscript_last in Hnext.
        unfold apply_update in Hnext. rewrite Hmsgs in Hnext.
        rewrite (add_messages_self _ _ Hb Hid) in Hnext.
        cbn [run_state messages active_worker] in Hnext.
        rewrite Hlast in Hnext. simpl in Hnext.
        unfold isinstance in Htool, Hnext.
        destruct (msg_class last); try discriminate Htool. simpl in Hnext.
        destruct (String.eqb _ _); injection Hnext as <-;
          destruct Hn'; discriminate.
    + (* db_chart_worker *)
      apply bind_ok in Hnext. destruct Hnext as [t [_ Hnext]].
      injection Hnext as <-. destruct t, Hn'; discriminate.
    + injection Hnext as <-. destruct Hn'; discriminate.
    + injection Hnext as <-. destruct Hn'; discriminate.
    + (* sql_tools *)
      rewrite apply_update_active, (call_sql_tools_active env _ _ Hu).
      apply IH. right. reflexivity.
    + injection Hnext as <-. destruct Hn'; discriminate.
Qed.

(** The hypotheses of the two hand-off theorems hold at every visit of
    the SQL worker in a run. *)
Lemma reachable_sql_worker env prompt files r :
  reachable env prompt files sql_worker r ->
  well_formed r /\ active_worker (run_state r) = "sql_worker".
Proof.
  intros H. split.
  - apply (reachable_invariant _ _ _ _ _ H).
  - apply (reachable_sql_active _ _ _ _ _ H). left. reflexivity.
Qed.

(** ** The step limit *)

Lemma run_from_visits_le env limit : forall n r,
  length (fst (run_from env limit n r)) <= limit.
Proof.
  induction limit as [|limit IH]; intros n r.
  - destruct n; simpl; lia.
  - destruct n; simpl; try lia;
      (destruct (step env _ r) as [[n' r']|e]; simpl; [|lia];
       specialize (IH n' r'); destruct (run_from env limit n' r'); simpl in *; lia).
Qed.

Lemma last_of_app_nonempty {A} (P : A -> Prop) (xs ys : list A) :
  Forall P ys -> ys <> [] -> exists y, last_of (xs ++ ys) = Some y /\ P y.
Proof.
  intros HP Hne.
  destruct (exists_last Hne) as [init [y ->]].
  exists y. rewrite app_assoc, last_of_app. split; [reflexivity|].
  apply Forall_app in HP. destruct HP as [_ HP]. inversion HP. assumption.
Qed.

Lemma nonempty_of_last {A} (xs : list A) x :
  last_of xs = Some x -> exists y ys, xs = y :: ys.
Proof. destruct xs; [discriminate | eauto]. Qed.

Lemma has_tool_calls_true m : tool_calls m <> [] -> has_tool_calls m = true.
Proof. unfold has_tool_calls. destruct (tool_calls m); [tauto | reflexivity]. Qed.

Lemma step_with_new env n r new n' :
  well_formed r -> unnumbered new ->
  node_function env n (run_state r) = Ok (mkUpdate (Some new) None None None) ->
  (forall s, messages s = (messages (run_state r) ++ number (next_id r) new)%list ->
             next_node n s = Ok n') ->
  exists r', step env n r = Ok (n', r') /\ well_formed r' /\
    messages (run_state r') = (messages (run_state r) ++ number (next_id r) new)%list.
Proof.
  intros Hwf Hnew Hnode Hnext. unfold step. rewrite Hnode. simpl.
  assert (Hm : messages (run_state (apply_update r (mkUpdate (Some new) None None None)))
               = (messages (run_state r) ++ number (next_id r) new)%list).
  { unfold apply_update. cbn [u_messages].
    rewrite (add_messages_fresh _ _ _ (proj1 Hwf) Hnew). reflexivity. }
  rewrite (Hnext _ Hm). simpl. eexists. split; [reflexivity|].
  split; [|assumption].
  apply apply_update_appends; [assumption|]. apply shape_new. assumption.
Qed.

Lemma tool_messages_strings env calls : forall k,
  Forall (fun m => exists s, content m = CStr s)
         (number k (map (fun call => mkMessage ToolMessage None
                                       (CStr (run_tool env call)) []) calls)).
Proof.
  induction calls as [|c cs IH]; intros k; simpl; constructor;
    [eexists; reflexivity | apply IH].
Qed.

Lemma csv_loop_step env n r :
  (forall c, resp_tool_calls (llm env c) <> []) ->
  in_csv_loop n r ->
  exists n' r', step env n r = Ok (n', r') /\ in_csv_loop n' r'.
Proof.
  intros Hcalls [Hwf [last [Hlast Hcase]]].
  destruct (nonempty_of_last _ _ Hlast) as [first [rest Hms]].
  destruct Hcase as [[-> Hstr] | [-> [Hai Htc]]].
  - (* the worker: either phase answers with a tool-call request *)
    assert (Hphase : exists text calls, calls <> [] /\
              csv_worker_node env (run_state r)
              = Ok (mkUpdate (Some [ai_message text calls]) None None None)).
    { unfold csv_worker_node, subscript_last. rewrite Hlast. simpl.
      destruct (isinstance last ToolMessage) eqn:Htool.
      - destruct (Hstr eq_refl) as [out ->].
        eexists _, _. split; [apply (Hcalls (SummarizeCsv out)) | reflexivity].
      - rewrite Hms. simpl.
        set (c := GenerateCsv _ _ _).
        rewrite (has_tool_calls_true (response_message (llm env c)) (Hcalls c)).
        simpl. eexists _, _. split; [apply (Hcalls c) | reflexivity]. }
    destruct Hphase as [text [calls [Hne Hnode]]].
    destruct (step_with_new env csv_worker r [ai_message text calls] csv_tools Hwf)
      as [r' [Hstep [Hwf' Hm']]].
    + constructor; [reflexivity | constructor].
    + exact Hnode.
    + intros s Hs. simpl. unfold wants_tools, subscript_last.
      rewrite Hs. simpl. rewrite last_of_app. simpl.
      unfold has_tool_calls. simpl. destruct calls; [contradiction | reflexivity].
    + exists csv_tools, r'. split; [assumption|]. split; [assumption|].
      eexists. rewrite Hm'. simpl. rewrite last_of_app.
      split; [reflexivity|]. right. repeat split; assumption.
  - (* the tool node: one tool result for each requested call *)
    set (new := map (fun call => mkMessage ToolMessage None
                                   (CStr (run_tool env call)) [])
                    (tool_calls last)).
    destruct (step_with_new env csv_tools r new csv_worker Hwf)
      as [r' [Hstep [Hwf' Hm']]].
    + apply tool_messages_unnumbered.
    + simpl. unfold tool_node, subscript_last. rewrite Hlast. simpl.
      rewrite Hai. reflexivity.
    + reflexivity.
    + exists csv_worker, r'. split; [assumption|]. split; [assumption|].
      destruct (last_of_app_nonempty
                  (fun m => exists s, content m = CStr s)
                  (messages (run_state r)) (number (next_id r) new))
        as [y [Hy [s Hs]]].
      * apply tool_messages_strings.
      * subst new. destruct (tool_calls last); [contradiction | discriminate].
      * exists y. rewrite Hm'. split; [assumption|].
        left. split; [reflexivity | eauto].
Qed.

Lemma csv_loop_exhausts env limit : forall n r,
  (forall c, resp_tool_calls (llm env c) <> []) ->
  in_csv_loop n r ->
  snd (run_from env limit n r) = Raise GraphRecursionError /\
  length (fst (run_from env limit n r)) = limit.
Proof.
  induction limit as [|limit IH]; intros n r Hcalls Hloop.
  - destruct Hloop as [_ [last [_ [[-> _] | [-> _]]]]]; split; reflexivity.
  - destruct (csv_loop_step env n r Hcalls Hloop) as [n' [r' [Hstep Hloop']]].
    destruct (IH n' r' Hcalls Hloop') as [Hout Hlen].
    assert (Hn : n = csv_worker \/ n = csv_tools).
    { destruct Hloop as [_ [last [_ [[-> _] | [-> _]]]]]; tauto. }
    destruct Hn as [-> | ->]; simpl; rewrite Hstep;
      destruct (run_from env limit n' r') as [visited out]; simpl in *;
      split; [assumption | f_equal; assumption | assumption | f_equal; assumption].
Qed.

Lemma entry_state prompt files :
  entry (initial_state prompt files)
  = mkRun (mkState [originating_message prompt] files "supervisor" None None) 1.
Proof. reflexivity. Qed.

Lemma supervisor_step_csv env prompt files :
  has_csv files = true ->
  has_db files && has_sql_keyword (PyStr.lower prompt) = false ->
  step env supervisor (entry (initial_state prompt files))
  = Ok (csv_worker,
        mkRun (mkState [originating_message prompt] files "csv_worker" None None) 1).
Proof.
  intros Hcsv Hsql. rewrite entry_state. unfold step. cbn [node_function run_state].
  rewrite (supervisor_node_routes _ [] (originating_message prompt) prompt)
    by reflexivity.
  cbn [file_paths]. rewrite Hsql, Hcsv. reflexivity.
Qed.

Lemma process_query_raise env prompt f fs e :
  get_local_files env = f :: fs ->
  snd (invoke env (initial_state prompt (f :: fs)) recursion_limit) = Raise e ->
  process_query env prompt = HTTPException 500 (AgentError e).
Proof.
  intros Hfiles Hrun. unfold process_query. rewrite Hfiles, Hrun. reflexivity.
Qed.

Lemma csv_run_exhausts env prompt files limit :
  (forall c, resp_tool_calls (llm env c) <> []) ->
  has_csv files = true ->
  has_db files && has_sql_keyword (PyStr.lower prompt) = false ->
  snd (invoke env (initial_state prompt files) (S limit)) = Raise GraphRecursionError /\
  length (fst (invoke env (initial_state prompt files) (S limit))) = S limit.
Proof.
  intros Hcalls Hcsv Hsql.
  pose (r1 := mkRun (mkState [originating_message prompt] files
                             "csv_worker" None None) 1).
  assert (Hloop : in_csv_loop csv_worker r1).
  { split.
    - split; cbn.
      + constructor; [|constructor]. exists 0. split; [reflexivity | lia].
      + intros m1 m2 [<- | []] [<- | []] _. reflexivity.
    - exists (originating_message prompt). split; [reflexivity|].
      left. split; [reflexivity | discriminate]. }
  destruct (csv_loop_exhausts env limit csv_worker r1 Hcalls Hloop) as [Hout Hlen].
  unfold invoke.
  rewrite (run_from_step env limit supervisor _ csv_worker r1);
    [| discriminate | apply supervisor_step_csv; assumption].
  cbn [fst snd length]. rewrite Hout, Hlen. split; reflexivity.
Qed.

(** C8. Run-level exhaustion: a run never visits more nodes than its
    step limit allows; and when the model answers every call with a
    tool-call request, a query routed to the tabular worker uses up the
    limit of [process_query] and comes back as the HTTP 500 failure
    carrying the engine's recursion error. *)
Theorem run_exhaustion env prompt :
  (forall limit initial,
      length (fst (invoke env initial limit)) <= limit) /\
  ((forall c, resp_tool_calls (llm env c) <> []) ->
   has_csv (get_local_files env) = true ->
   has_db (get_local_files env) && has_sql_keyword (PyStr.lower prompt) = false ->
   process_query env prompt = HTTPException 500 (AgentError GraphRecursionError) /\
   length (fst (invoke env (initial_state prompt (get_local_files env))
                       recursion_limit)) = recursion_limit).
Proof.
  split.
  - intros limit initial. apply run_from_visits_le.
  - intros Hcalls Hcsv Hsql.
    destruct (csv_run_exhausts env prompt (get_local_files env) 99
                               Hcalls Hcsv Hsql) as [Hout Hlen].
    split; [|exact Hlen].
    destruct (get_local_files env) as [|f fs] eqn:Hfiles; [discriminate Hcsv|].
    apply (process_query_raise env prompt f fs); assumption.
Qed.

Lemma run_exhaustion_witness :
  process_query insistent_env "What is the mean price?"
  = HTTPException 500 (AgentError GraphRecursionError).
Proof.
  refine (proj1 (proj2 (run_exhaustion insistent_env "What is the mean price?")
                       _ _ _)).
  - intros c. simpl. discriminate.
  - reflexivity.
  - reflexivity.
Defined.

Lemma first_message_invariant_witness :
  exists rest,
    messages (run_state
                (mkRun (mkState [originating_message "What is the mean price?"]
                                ["prices.csv"] "csv_worker" None None) 1))
    = originating_message "What is the mean price?" :: rest.
Proof.
  refine (proj1 (first_message_invariant insistent_env
                   "What is the mean price?" ["prices.csv"] csv_worker _ _)).
  eapply reach_step; [apply reach_entry | reflexivity].
Defined.

(** ** Workers whose prompt demands a tool call *)

Lemma csv_worker_requires_tool_call env s last first :
  last_of (messages s) = Some last ->
  isinstance last ToolMessage = false ->
  subscript_first (messages s) = Ok first ->
  resp_tool_calls
    (llm env (GenerateCsv
                (filter (fun f => PyStr.endswith (PyStr.lower f) ".csv")
                        (file_paths s))
                (content first) (messages s))) = [] ->
  csv_worker_node env s
  = Raise (RuntimeError "CSV worker failed to call python_analyst tool.").
Proof.
  intros Hlast Htool Hfirst Hcalls.
  unfold csv_worker_node, subscript_last.
  rewrite Hlast. simpl. rewrite Htool, Hfirst. simpl.
  unfold has_tool_calls, response_message. simpl. rewrite Hcalls. reflexivity.
Qed.

Lemma db_chart_worker_requires_tool_call env s q db_file last first :
  stored_query s = Some q ->
  next_db (file_paths s) = Ok db_file ->
  last_of (messages s) = Some last ->
  isinstance last ToolMessage
    && match chart_code_generated s with Some true => true | _ => false end
    = false ->
  subscript_first (messages s) = Ok first ->
  resp_tool_calls (llm env (GenerateChart db_file q (content first))) = [] ->
  db_chart_worker_node env s
  = Raise (RuntimeError
             ("db_chart_worker failed to call db_python_analyst tool. Response: "
                ++ resp_content (llm env (GenerateChart db_file q (content first))))).
Proof.
  intros Hq Hdb Hlast Hphase Hfirst Hcalls.
  unfold db_chart_worker_node, subscript_last.
  rewrite Hq, Hdb. simpl. rewrite Hlast. simpl. rewrite Hphase, Hfirst. simpl.
  unfold has_tool_calls, response_message. simpl. rewrite Hcalls. reflexivity.
Qed.

(** The SQL worker has no such check: a reply without a tool call is
    returned as the worker's patch. *)
Lemma sql_worker_accepts_plain_text env s db_file last first text :
  next_db (file_paths s) = Ok db_file ->
  get_sql_tools env (join_uploads db_file) = Ok tt ->
  last_of (messages s) = Some last ->
  isinstance last ToolMessage = false ->
  subscript_first (messages s) = Ok first ->
  content first = CStr text ->
  let reply := llm env (GenerateSql db_file (content first)
                                    (has_chart_intent (PyStr.lower text))
                                    (messages s)) in
  resp_tool_calls reply = [] ->
  sql_worker_node env s
  = Ok (mkUpdate (Some [response_message reply]) None None None).
Proof.
  intros Hdb Htools Hlast Htool Hfirst Htext reply Hcalls.
  unfold sql_worker_node, subscript_last.
  rewrite Hdb. simpl. rewrite Htools. simpl. rewrite Hlast. simpl.
  rewrite Htool, Hfirst. simpl. rewrite Htext. simpl.
  rewrite <- Htext. fold reply.
  unfold has_tool_calls, response_message. simpl. rewrite Hcalls.
  reflexivity.
Qed.

(** C3. With a model that answers the SQL worker's query-generation
    prompt in plain text, the run raises nothing: the graph visits the
    router and the SQL worker, ends the branch, and [process_query]
    returns the model's text as the answer. *)
Theorem sql_worker_plain_text_not_fatal :
  fst (invoke prose_env
              (initial_state "What tables are in the database?" ["shop.db"])
              recursion_limit)
  = [supervisor; sql_worker] /\
  process_query prose_env "What tables are in the database?"
  = Answer "What tables are in the database?" ["shop.db"]
           (CStr "The database holds three tables.").
Proof. split; reflexivity. Qed.

(** ** Finding the database file *)

Lemma next_db_found files :
  (exists f, In f files /\ PyStr.is_suffix ".db" f) ->
  exists f, next_db files = Ok f.
Proof.
  intros [f [Hin Hsuf]]. apply endswith_spec in Hsuf.
  induction files as [|g rest IH]; simpl; [contradiction|].
  destruct (PyStr.endswith g ".db") eqn:Hg; [eauto|].
  destruct Hin as [-> | Hin]; [congruence | apply IH; assumption].
Qed.

(** C9. With the single file [SHOP.DB] the supervisor selects the SQL
    worker, and the SQL worker and the chart worker both raise
    [StopIteration] when they look for the database file. *)
Theorem db_lookup_raises_after_routing env :
  supervisor_node (upper_case_db_state "supervisor" None)
  = Ok (route "sql_worker") /\
  sql_worker_node env (upper_case_db_state "sql_worker" None)
  = Raise StopIteration /\
  db_chart_worker_node env (upper_case_db_state "db_chart_worker" (Some "SELECT 1"))
  = Raise StopIteration.
Proof. repeat split; reflexivity. Qed.

(** The same through the endpoint: the query comes back as HTTP 500. *)
Example upper_case_db_query_fails :
  process_query (mkEnv (llm prose_env) (run_tool prose_env)
                       (path_exists prose_env) ["SHOP.DB"])
                "What tables are in the database?"
  = HTTPException 500 (AgentError StopIteration).
Proof. reflexivity. Qed.

(** ** Concrete histories for the SQL worker's second phase *)

Lemma after_sql_tools_well_formed q : well_formed (after_sql_tools q).
Proof.
  split.
  - repeat constructor; eexists; (split; [reflexivity | simpl; lia]).
  - intros m1 m2 H1 H2 Heq. simpl in H1, H2.
    destruct H1 as [<- | [<- | [<- | []]]], H2 as [<- | [<- | [<- | []]]];
      try reflexivity; discriminate Heq.
Qed.

Lemma after_sql_tools_phase q : post_execution_phase prose_env (run_state (after_sql_tools q)).
Proof. eexists _, _. repeat split; reflexivity. Qed.

Lemma after_sql_tools_intent q : chart_intent_detected (run_state (after_sql_tools q)).
Proof. eexists _, _. repeat split; reflexivity. Qed.

Lemma sql_chart_handoff_witness :
  exists u,
    sql_worker_node prose_env (run_state (after_sql_tools "SELECT 1")) = Ok u /\
    sql_router (run_state (apply_update (after_sql_tools "SELECT 1") u))
    = Ok db_chart_worker.
Proof.
  destruct (sql_chart_handoff prose_env (after_sql_tools "SELECT 1") "SELECT 1"
              (after_sql_tools_well_formed _) (after_sql_tools_phase _)
              (after_sql_tools_intent _) eq_refl)
    as [u [Hu [_ [_ [_ [_ [_ [_ Hr]]]]]]]].
  exists u. split; assumption.
Defined.


(* ===================================================================== *)
(** * Chart-path extraction *)
(* ===================================================================== *)

(** ** Strings: append, lower-casing, characters *)

Lemma append_assoc (a b c : string) : (a ++ b) ++ c = a ++ (b ++ c).
Proof. induction a; simpl; [reflexivity | rewrite IHa; reflexivity]. Qed.



Lemma lower_app (a b : string) :
  PyStr.lower (a ++ b) = PyStr.lower a ++ PyStr.lower b.
Proof. induction a; simpl; [reflexivity | rewrite IHa; reflexivity]. Qed.

Lemma startswith_app_l (s t w : string) :
  PyStr.startswith s w = true -> PyStr.startswith (s ++ t) w = true.
Proof.
  rewrite !startswith_spec. intros [u ->]. exists (u ++ t).
  apply append_assoc.
Qed.



(** ** The matcher on literals *)

Lemma rmatch_Lit {A} cmp w : forall s g (k : string -> option string -> option A),
  rmatch (Lit cmp w) s g k =
  match lit_rest cmp w s with
  | Some rest => k rest g
  | None => None
  end.
Proof.
  induction w as [|a w IH]; intros s g k; simpl; [reflexivity|].
  destruct s as [|c s]; [reflexivity|].
  destruct (cmp a c); [apply IH | reflexivity].
Qed.

Lemma lit_rest_ci_none w : forall s,
  PyStr.startswith (PyStr.lower s) (PyStr.lower w) = false ->
  lit_rest ignoring_case w s = None.
Proof.
  induction w as [|a w IH]; intros s H; simpl in *; [discriminate|].
  destruct s as [|c s]; [reflexivity|]. simpl in H.
  unfold ignoring_case at 1.
  rewrite Ascii.eqb_sym in H.
  destruct (Ascii.eqb (PyStr.lower_char c) (PyStr.lower_char a)); [|reflexivity].
  apply IH. assumption.
Qed.




(** ** The matcher on repetitions *)





(** ** Captures and stripping *)







(** ** The capturing group [(.+?\.png)] *)


(** ** Normalising the captured path *)







(** ** The two markers *)









Example two_markers_result : extract_chart_path two_markers = Some "out.png".
Proof. reflexivity. Qed.

(** A prefix with a directory named like an image cuts the path short. *)
Example prefix_with_ext_result :
  extract_chart_path "saved to: /home/u.png/charts/x.png" = Some "/home/u.png".
Proof. reflexivity. Qed.

(* ===================================================================== *)
(** * Router, orchestration and the query endpoint *)
(* ===================================================================== *)

(** ** Content given as a list of parts *)

Lemma parts_text_str_item parts s :
  In (PStr s) parts -> parts_text parts = Raise AttributeError.
Proof.
  induction parts as [|p rest IH]; intros Hin; [contradiction|].
  destruct Hin as [-> | Hin]; [reflexivity|].
  destruct p as [t|d]; [reflexivity|].
  simpl. rewrite (IH Hin). reflexivity.
Qed.

(** X1. A latest message whose content is a list with a plain string
    among its items makes the router raise [AttributeError]: flattening
    calls [get] on every item. *)
Theorem supervisor_str_part_raises state init last parts s :
  messages state = (init ++ [last])%list ->
  content last = CList parts ->
  In (PStr s) parts ->
  supervisor_node state = Raise AttributeError.
Proof.
  intros Hm Hc Hin. unfold supervisor_node.
  rewrite Hm, last_of_app, early_exit_never_taken, Hc. simpl.
  rewrite (parts_text_str_item parts s Hin). reflexivity.
Qed.

Lemma supervisor_str_part_raises_witness :
  supervisor_node
    (mkState [mkMessage HumanMessage (Some 0)
                        (CList [PDict [("type", "text"); ("text", "list the tables")];
                                PStr "of the database"]) []]
             ["shop.db"] "supervisor" None None)
  = Raise AttributeError.
Proof.
  eapply (supervisor_str_part_raises _ [] _ _ "of the database");
    [reflexivity | reflexivity | simpl; tauto].
Defined.

(** ** The endpoint's answers *)

Lemma get_local_files_spec env f :
  In f (get_local_files env) <->
  In f (listdir env) /\
  (PyStr.is_suffix ".csv" (PyStr.lower f) \/ PyStr.is_suffix ".db" (PyStr.lower f)).
Proof.
  unfold get_local_files. rewrite filter_In, orb_true_iff, !endswith_spec.
  reflexivity.
Qed.

(** X2. [process_query] answers HTTP 400 exactly when the uploads
    directory holds no file whose lower-cased name ends in [.csv] or
    [.db]; the graph is not run in that case. *)
Theorem process_query_400_iff env prompt :
  process_query env prompt = HTTPException 400 NoDataFiles <->
  (forall f, In f (listdir env) ->
             ~ PyStr.is_suffix ".csv" (PyStr.lower f) /\
             ~ PyStr.is_suffix ".db" (PyStr.lower f)).
Proof.
  split.
  - intros H f Hin.
    assert (Hnot : ~ In f (get_local_files env)).
    { unfold process_query in H.
      destruct (get_local_files env) as [|g gs]; [tauto|].
      destruct (snd (invoke env _ recursion_limit)) as [final|e]; [|discriminate H].
      destruct (subscript_last _); discriminate H. }
    rewrite get_local_files_spec in Hnot. tauto.
  - intros H. unfold process_query.
    destruct (get_local_files env) as [|g gs] eqn:Hfiles; [reflexivity|].
    exfalso.
    assert (Hin : In g (get_local_files env)) by (rewrite Hfiles; left; reflexivity).
    apply get_local_files_spec in Hin. destruct Hin as [Hin Hext].
    destruct (H g Hin). tauto.
Qed.

Lemma process_query_400_iff_witness :
  process_query (mkEnv (llm prose_env) (run_tool prose_env) (path_exists prose_env)
                       ["notes.txt"; "db.bak"])
                "What is the mean price?"
  = HTTPException 400 NoDataFiles.
Proof.
  apply (proj2 (process_query_400_iff _ _)).
  intros f [<- | [<- | []]]; split; intros Hs;
    apply endswith_spec in Hs; discriminate Hs.
Defined.

(** ** A worker that fails on its first visit *)

Lemma supervisor_step_sql env prompt files :
  has_db files && has_sql_keyword (PyStr.lower prompt) = true ->
  step env supervisor (entry (initial_state prompt files))
  = Ok (sql_worker, routed prompt files "sql_worker").
Proof.
  intros Hsql. rewrite entry_state. unfold step. cbn [node_function run_state].
  rewrite (supervisor_node_routes _ [] (originating_message prompt) prompt)
    by reflexivity.
  cbn [file_paths]. rewrite Hsql. reflexivity.
Qed.

Lemma run_from_raise env limit n r e :
  n <> END -> step env n r = Raise e ->
  run_from env (S limit) n r = ([n], Raise e).
Proof.
  intros Hn Hstep. destruct n; try contradiction; simpl; rewrite Hstep; reflexivity.
Qed.

Lemma step_node_raise env n r e :
  node_function env n (run_state r) = Raise e -> step env n r = Raise e.
Proof. intros H. unfold step. rewrite H. reflexivity. Qed.

(** The first worker raises: the endpoint reports it as HTTP 500. *)
Lemma process_query_first_worker_raises env prompt worker name e :
  get_local_files env <> [] ->
  worker <> END ->
  step env supervisor (entry (initial_state prompt (get_local_files env)))
  = Ok (worker, routed prompt (get_local_files env) name) ->
  node_function env worker
                (run_state (routed prompt (get_local_files env) name)) = Raise e ->
  process_query env prompt = HTTPException 500 (AgentError e).
Proof.
  intros Hfiles Hw Hsup Hnode.
  destruct (get_local_files env) as [|f fs] eqn:Hlist; [contradiction|].
  apply (process_query_raise env prompt f fs); [assumption|].
  unfold invoke, recursion_limit.
  rewrite (run_from_step env 99 supervisor _ _ _ ltac:(discriminate) Hsup).
  rewrite (run_from_raise env 98 worker _ e Hw (step_node_raise _ _ _ _ Hnode)).
  reflexivity.
Qed.

(** X3. A query routed to the tabular worker whose model reply carries
    no tool call comes back as HTTP 500 with the worker's
    [RuntimeError]. *)
Theorem csv_plain_reply_is_http_500 env prompt :
  has_csv (get_local_files env) = true ->
  has_db (get_local_files env) && has_sql_keyword (PyStr.lower prompt) = false ->
  resp_tool_calls
    (llm env (GenerateCsv
                (filter (fun f => PyStr.endswith (PyStr.lower f) ".csv")
                        (get_local_files env))
                (CStr prompt) [originating_message prompt])) = [] ->
  process_query env prompt
  = HTTPException 500
      (AgentError (RuntimeError "CSV worker failed to call python_analyst tool.")).
Proof.
  intros Hcsv Hsql Hcalls.
  apply (process_query_first_worker_raises env prompt csv_worker "csv_worker").
  - intros H. rewrite H in Hcsv. discriminate.
  - discriminate.
  - apply supervisor_step_csv; assumption.
  - apply (csv_worker_requires_tool_call env _ (originating_message prompt)
                                         (originating_message prompt));
      try reflexivity. exact Hcalls.
Qed.

Lemma csv_plain_reply_is_http_500_witness :
  process_query prose_csv_env "What is the mean price?"
  = HTTPException 500
      (AgentError (RuntimeError "CSV worker failed to call python_analyst tool.")).
Proof.
  apply csv_plain_reply_is_http_500; reflexivity.
Defined.

(** ** The SQL worker's first visit *)

Lemma basename_from_app a : forall acc b,
  basename_from (a ++ String "/" b) acc = basename_from b "".
Proof.
  induction a as [|c a IH]; intros acc b; simpl; [reflexivity|].
  destruct (Ascii.eqb c "/"); apply IH.
Qed.

Lemma basename_join_uploads p : basename (join_uploads p) = basename p.
Proof.
  unfold join_uploads. destruct (PyStr.startswith p "/"); [reflexivity|].
  unfold basename.
  change ("uploads/" ++ p) with ("uploads" ++ String "/" p).
  apply basename_from_app.
Qed.

Lemma occurs_app c a b : occurs c (a ++ b) = occurs c a || occurs c b.
Proof.
  induction a as [|x a IH]; simpl; [reflexivity|].
  rewrite IH, orb_assoc. reflexivity.
Qed.

Lemma basename_from_no_sep p : forall acc,
  occurs "/" acc = false -> occurs "/" (basename_from p acc) = false.
Proof.
  induction p as [|c p IH]; intros acc Hacc; simpl; [assumption|].
  destruct (Ascii.eqb c "/") eqn:Hc; apply IH; [reflexivity|].
  rewrite occurs_app, Hacc. cbn [occurs orb]. rewrite Hc. reflexivity.
Qed.

Lemma basename_no_sep p : occurs "/" (basename p) = false.
Proof. apply basename_from_no_sep. reflexivity. Qed.

Lemma join_uploads_basename p : join_uploads (basename p) = "uploads/" ++ basename p.
Proof.
  unfold join_uploads. pose proof (basename_no_sep p) as H.
  destruct (basename p) as [|c b]; [reflexivity|].
  cbn [occurs] in H. apply orb_false_iff in H. destruct H as [Hc _].
  cbn [PyStr.startswith]. rewrite Ascii.eqb_sym, Hc. reflexivity.
Qed.

Lemma get_sql_tools_join env db_file :
  get_sql_tools env (join_uploads db_file) = get_sql_tools env db_file.
Proof. unfold get_sql_tools. rewrite basename_join_uploads. reflexivity. Qed.

Lemma get_sql_tools_path env db_file :
  get_sql_tools env db_file
  = if path_exists env ("uploads/" ++ basename db_file) then Ok tt
    else Raise (RuntimeError ("Database file not found: uploads/"
                                ++ basename db_file)).
Proof. unfold get_sql_tools. rewrite join_uploads_basename. reflexivity. Qed.


Lemma sql_first_visit env prompt files db_file :
  next_db files = Ok db_file ->
  sql_worker_node env (run_state (routed prompt files "sql_worker"))
  = let* tools := get_sql_tools env db_file in
    let response :=
      response_message
        (llm env (GenerateSql db_file (CStr prompt)
                              (has_chart_intent (PyStr.lower prompt))
                              [originating_message prompt])) in
    if has_tool_calls response then
      match tool_calls response with
      | call :: _ =>
          match dict_lookup (tc_args call) "query" with
          | Some sql_query =>
              Ok (mkUpdate (Some [response]) None (Some (Some sql_query)) None)
          | None => Raise (KeyError "query")
          end
      | [] => Raise IndexError
      end
    else Ok (mkUpdate (Some [response]) None None None).
Proof.
  intros Hdb. unfold sql_worker_node. cbn [run_state routed file_paths messages].
  rewrite Hdb. cbn [bind].
  rewrite get_sql_tools_join.
  destruct (get_sql_tools env db_file) as [[]|e]; reflexivity.
Qed.

(** X5. A query routed to the SQL worker whose database file is not
    under [uploads/] comes back as HTTP 500 naming the path that was
    looked up. *)
Theorem missing_database_is_http_500 env prompt db_file :
  has_db (get_local_files env) && has_sql_keyword (PyStr.lower prompt) = true ->
  next_db (get_local_files env) = Ok db_file ->
  path_exists env ("uploads/" ++ basename db_file) = false ->
  process_query env prompt
  = HTTPException 500
      (AgentError (RuntimeError ("Database file not found: uploads/"
                                   ++ basename db_file))).
Proof.
  intros Hsql Hdb Hmissing.
  apply (process_query_first_worker_raises env prompt sql_worker "sql_worker").
  - intros H. rewrite H in Hdb. discriminate.
  - discriminate.
  - apply supervisor_step_sql; assumption.
  - cbn [node_function]. rewrite (sql_first_visit env prompt _ db_file Hdb).
    rewrite get_sql_tools_path, Hmissing. reflexivity.
Qed.

Lemma missing_database_is_http_500_witness :
  process_query missing_db_env "What tables are in the database?"
  = HTTPException 500
      (AgentError (RuntimeError "Database file not found: uploads/shop.db")).
Proof.
  apply (missing_database_is_http_500 missing_db_env _ "shop.db"); reflexivity.
Defined.



(** ** What a step keeps *)

Lemma apply_update_files r u :
  file_paths (run_state (apply_update r u)) = file_paths (run_state r).
Proof.
  unfold apply_update. destruct (u_messages u) as [new|];
    [destruct (add_messages _ _ new)|]; reflexivity.
Qed.

Lemma apply_update_last_sql r u :
  last_sql_query (run_state (apply_update r u))
  = overwrite (last_sql_query (run_state r)) (u_last_sql_query u).
Proof.
  unfold apply_update. destruct (u_messages u) as [new|];
    [destruct (add_messages _ _ new)|]; reflexivity.
Qed.

Lemma step_inv env n r n' r' :
  step env n r = Ok (n', r') ->
  exists u, node_function env n (run_state r) = Ok u /\
            r' = apply_update r u /\
            next_node n (run_state r') = Ok n'.
Proof.
  unfold step. intros H.
  apply bind_ok in H. destruct H as [u [Hu H]].
  apply bind_ok in H. destruct H as [nxt [Hnext H]].
  injection H as <- <-. eauto.
Qed.

Lemma reachable_files env prompt files n r :
  reachable env prompt files n r -> file_paths (run_state r) = files.
Proof.
  induction 1 as [|n r n' r' _ IH Hstep]; [reflexivity|].
  destruct (step_inv _ _ _ _ _ Hstep) as [u [_ [-> _]]].
  rewrite apply_update_files. assumption.
Qed.

Lemma wants_tools_true s :
  wants_tools s = Ok true ->
  exists last, last_of (messages s) = Some last /\ isinstance last AIMessage = true.
Proof.
  unfold wants_tools, subscript_last.
  destruct (last_of (messages s)) as [last|]; [|discriminate].
  simpl. intros [= H]. apply andb_true_iff in H. destruct H as [H _]. eauto.
Qed.

Lemma sql_router_tools s :
  sql_router s = Ok sql_tools ->
  exists last, last_of (messages s) = Some last /\ isinstance last AIMessage = true.
Proof.
  unfold sql_router, subscript_last.
  destruct (last_of (messages s)) as [last|]; [|discriminate].
  simpl. destruct (isinstance last AIMessage && has_tool_calls last) eqn:H.
  - intros _. apply andb_true_iff in H. destruct H as [H _]. eauto.
  - destruct (String.eqb _ _); discriminate.
Qed.

Lemma tool_node_ok env s last :
  last_of (messages s) = Some last -> isinstance last AIMessage = true ->
  exists u, tool_node env s = Ok u.
Proof.
  intros Hlast Hai. unfold tool_node, subscript_last.
  rewrite Hlast. simpl. rewrite Hai. eauto.
Qed.

(** What a successful visit of the SQL worker tells about the state it
    saw and about its patch. *)
Lemma sql_worker_ok env s u :
  sql_worker_node env s = Ok u ->
  (exists db, next_db (file_paths s) = Ok db /\
              get_sql_tools env (join_uploads db) = Ok tt) /\
  (u_active_worker u = None \/
   (has_stored_query s = true /\ u_last_sql_query u = None)).
Proof.
  unfold sql_worker_node. intros H.
  apply bind_ok in H. destruct H as [db_file [Hdb H]].
  apply bind_ok in H. destruct H as [[] [Htools H]].
  split; [eauto|].
  apply bind_ok in H. destruct H as [last [_ H]].
  destruct (isinstance last ToolMessage);
    apply bind_ok in H; destruct H as [first [_ H]];
    apply bind_ok in H; destruct H as [user_query [_ H]].
  - destruct (has_chart_intent user_query && has_stored_query s) eqn:Hh.
    + injection H as <-. right.
      apply andb_true_iff in Hh. destruct Hh as [_ Hh]. split; [assumption | reflexivity].
    + destruct (_ && negb _); injection H as <-; left; reflexivity.
  - destruct (_ && _); [|injection H as <-; left; reflexivity].
    destruct (tool_calls _) as [|call calls]; [discriminate H|].
    destruct (dict_lookup _ _); [|discriminate H].
    injection H as <-. left. reflexivity.
Qed.

(** The node a step leads to, by the node it leaves. *)
Lemma next_node_cases n s n' :
  next_node n s = Ok n' ->
  match n with
  | supervisor => n' = csv_worker \/ n' = sql_worker \/ n' = END
  | csv_worker => (n' = csv_tools /\ wants_tools s = Ok true) \/ n' = END
  | csv_tools => n' = csv_worker
  | sql_worker => sql_router s = Ok n' /\
                  (n' = sql_tools \/ n' = db_chart_worker \/ n' = END)
  | sql_tools => n' = sql_worker
  | db_chart_worker => (n' = db_chart_tools /\ wants_tools s = Ok true) \/ n' = END
  | db_chart_tools => n' = db_chart_worker
  | END => n' = END
  end.
Proof.
  destruct n; simpl; intros H.
  - destruct (String.eqb _ "csv_worker"); [injection H as <-; tauto|].
    destruct (String.eqb _ "sql_worker"); [injection H as <-; tauto|].
    destruct (String.eqb _ "general"); [injection H as <-; tauto | discriminate].
  - apply bind_ok in H. destruct H as [t [Ht H]]. injection H as <-.
    destruct t; [left; split; [reflexivity | assumption] | right; reflexivity].
  - split; [assumption|]. unfold sql_router in H.
    apply bind_ok in H. destruct H as [last [_ H]].
    destruct (_ && _); [injection H as <-; tauto|].
    destruct (String.eqb _ _); injection H as <-; tauto.
  - apply bind_ok in H. destruct H as [t [Ht H]]. injection H as <-.
    destruct t; [left; split; [reflexivity | assumption] | right; reflexivity].
  - injection H as <-. reflexivity.
  - injection H as <-. reflexivity.
  - injection H as <-. reflexivity.
  - injection H as <-. reflexivity.
Qed.

(** ** Tool nodes in a run *)

(** X7. In a run the three tool nodes never raise: each is entered on an
    assistant message, and the SQL tool node finds the database file the
    SQL worker has just found, at the same path. *)
Theorem tool_nodes_never_raise env prompt files n r :
  reachable env prompt files n r ->
  n = csv_tools \/ n = sql_tools \/ n = db_chart_tools ->
  exists n' r', step env n r = Ok (n', r').
Proof.
  intros Hreach Hn.
  inversion Hreach as [Hs Hr | n0 r0 n1 r1 Hreach0 Hstep Hn1 Hr1].
  { subst n. destruct Hn as [H | [H | H]]; discriminate H. }
  subst n1 r1.
  destruct (step_inv _ _ _ _ _ Hstep) as [u [Hu [Hr Hnext]]].
  apply next_node_cases in Hnext.
  assert (Hstep_of : forall u', node_function env n (run_state r) = Ok u' ->
            (exists w, forall s, next_node n s = Ok w) ->
            exists n' r', step env n r = Ok (n', r')).
  { intros u' Hu' [w Hw]. unfold step. rewrite Hu'. simpl. rewrite Hw. simpl. eauto. }
  destruct n0; cbn iota in Hnext.
  - destruct Hnext as [-> | [-> | ->]], Hn as [H | [H | H]]; discriminate H.
  - destruct Hnext as [[-> Hw] | ->]; [|destruct Hn as [H | [H | H]]; discriminate H].
    destruct (wants_tools_true _ Hw) as [last [Hlast Hai]].
    destruct (tool_node_ok env _ last Hlast Hai) as [u' Hu'].
    apply (Hstep_of u' Hu'). exists csv_worker. reflexivity.
  - destruct Hnext as [Hrouter [-> | [-> | ->]]];
      try (destruct Hn as [H | [H | H]]; discriminate H).
    destruct (sql_router_tools _ Hrouter) as [last [Hlast Hai]].
    destruct (tool_node_ok env _ last Hlast Hai) as [u' Hu'].
    destruct (sql_worker_ok env _ _ Hu) as [[db [Hdb Htools]] _].
    assert (Hcall : exists u2, call_sql_tools env (run_state r) = Ok u2).
    { unfold call_sql_tools. rewrite Hr, apply_update_files, Hdb. cbn [bind].
      rewrite <- get_sql_tools_join, Htools. cbn [bind].
      rewrite <- Hr, Hu'. cbn [bind]. eauto. }
    destruct Hcall as [u2 Hu2].
    apply (Hstep_of u2 Hu2). exists sql_worker. reflexivity.
  - destruct Hnext as [[-> Hw] | ->]; [|destruct Hn as [H | [H | H]]; discriminate H].
    destruct (wants_tools_true _ Hw) as [last [Hlast Hai]].
    destruct (tool_node_ok env _ last Hlast Hai) as [u' Hu'].
    apply (Hstep_of u' Hu'). exists db_chart_worker. reflexivity.
  - subst n. destruct Hn as [H | [H | H]]; discriminate H.
  - subst n. destruct Hn as [H | [H | H]]; discriminate H.
  - subst n. destruct Hn as [H | [H | H]]; discriminate H.
  - subst n. destruct Hn as [H | [H | H]]; discriminate H.
Qed.

Lemma tool_nodes_never_raise_witness :
  exists r n' r',
    reachable insistent_env "What is the mean price?" ["prices.csv"] csv_tools r /\
    step insistent_env csv_tools r = Ok (n', r').
Proof.
  assert (Hreach : reachable insistent_env "What is the mean price?" ["prices.csv"]
                     csv_tools
                     (apply_update (routed "What is the mean price?" ["prices.csv"]
                                           "csv_worker")
                        (mkUpdate (Some [response_message
                                           (llm insistent_env (SummarizeCsv ""))])
                                  None None None))).
  { eapply reach_step; [eapply reach_step; [apply reach_entry|]|]; reflexivity. }
  destruct (tool_nodes_never_raise _ _ _ _ _ Hreach (or_introl eq_refl))
    as [n' [r' Hstep]].
  eauto.
Defined.

(** ** The chart worker in a run *)

Lemma stored_query_of_last_sql s s' :
  last_sql_query s' = last_sql_query s -> stored_query s' = stored_query s.
Proof. unfold stored_query. intros ->. reflexivity. Qed.

Lemma tool_node_last_sql env s u : tool_node env s = Ok u -> u_last_sql_query u = None.
Proof.
  unfold tool_node. intros H.
  apply bind_ok in H. destruct H as [last [_ H]].
  destruct (isinstance last AIMessage); [|discriminate H].
  injection H as <-. reflexivity.
Qed.

Lemma db_chart_worker_last_sql env s u :
  db_chart_worker_node env s = Ok u -> u_last_sql_query u = None.
Proof.
  unfold db_chart_worker_node. intros H.
  destruct (stored_query s); [|discriminate H].
  apply bind_ok in H. destruct H as [db_file [_ H]].
  apply bind_ok in H. destruct H as [last [_ H]].
  destruct (_ && _); [injection H as <-; reflexivity|].
  apply bind_ok in H. destruct H as [first [_ H]].
  destruct (negb _); [discriminate H | injection H as <-; reflexivity].
Qed.

Lemma sql_router_chart s :
  sql_router s = Ok db_chart_worker -> active_worker s = "db_chart_worker".
Proof.
  unfold sql_router. intros H.
  apply bind_ok in H. destruct H as [last [_ H]].
  destruct (_ && _); [discriminate H|].
  destruct (String.eqb _ _) eqn:Hw; [|discriminate H].
  apply String.eqb_eq in Hw. assumption.
Qed.

(** Whenever a run is about to visit the chart worker or its tool node, a
    non-empty SQL statement is stored and the file list has a database
    file. *)
Lemma reachable_chart_ready env prompt files n r :
  reachable env prompt files n r ->
  n = db_chart_worker \/ n = db_chart_tools ->
  (exists q, stored_query (run_state r) = Some q) /\
  (exists db, next_db (file_paths (run_state r)) = Ok db).
Proof.
  induction 1 as [|n0 r0 n r Hreach IH Hstep]; intros Hn.
  - destruct Hn; discriminate.
  - destruct (step_inv _ _ _ _ _ Hstep) as [u [Hu [Hr Hnext]]].
    apply next_node_cases in Hnext.
    assert (Hkeep : u_last_sql_query u = None ->
              n0 = db_chart_worker \/ n0 = db_chart_tools ->
              (exists q, stored_query (run_state r) = Some q) /\
              (exists db, next_db (file_paths (run_state r)) = Ok db)).
    { intros Hnone Hn0. destruct (IH Hn0) as [[q Hq] Hdb].
      rewrite Hr, apply_update_files. split; [|assumption].
      exists q. rewrite <- Hq. apply stored_query_of_last_sql.
      rewrite apply_update_last_sql, Hnone. reflexivity. }
    destruct n0; cbn iota in Hnext.
    + destruct Hnext as [-> | [-> | ->]], Hn; discriminate.
    + destruct Hnext as [[-> _] | ->], Hn; discriminate.
    + destruct Hnext as [Hrouter [-> | [-> | ->]]]; try (destruct Hn; discriminate).
      apply sql_router_chart in Hrouter.
      rewrite Hr, apply_update_active in Hrouter.
      rewrite (reachable_sql_active _ _ _ _ _ Hreach (or_introl eq_refl)) in Hrouter.
      destruct (sql_worker_ok env _ _ Hu) as [[db [Hdb _]] [Hnone | [Hstored Hsql]]].
      * rewrite Hnone in Hrouter. discriminate Hrouter.
      * rewrite Hr, apply_update_files. split; [|eauto].
        unfold has_stored_query in Hstored.
        destruct (stored_query (run_state r0)) as [q|] eqn:Hq; [|discriminate].
        exists q. rewrite <- Hq. apply stored_query_of_last_sql.
        rewrite apply_update_last_sql, Hsql. reflexivity.
    + apply Hkeep; [|left; reflexivity].
      apply (db_chart_worker_last_sql env _ _ Hu).
    + subst n. destruct Hn; discriminate.
    + apply Hkeep; [|right; reflexivity].
      apply (tool_node_last_sql env _ _ Hu).
    + subst n. destruct Hn; discriminate.
    + subst n. destruct Hn; discriminate.
Qed.

(** X8. In a run the chart worker never fails for want of a stored SQL
    statement or of a database file: a visit either returns a patch or
    raises the [RuntimeError] for a model reply without a tool call. *)
Theorem chart_worker_fails_only_on_plain_reply env prompt files r :
  reachable env prompt files db_chart_worker r ->
  (exists u, db_chart_worker_node env (run_state r) = Ok u) \/
  (exists text,
      db_chart_worker_node env (run_state r)
      = Raise (RuntimeError
                 ("db_chart_worker failed to call db_python_analyst tool. Response: "
                    ++ text))).
Proof.
  intros Hreach.
  destruct (reachable_chart_ready _ _ _ _ _ Hreach (or_introl eq_refl))
    as [[q Hq] [db Hdb]].
  destruct (reachable_invariant _ _ _ _ _ Hreach) as [_ [rest Hfirst]].
  unfold db_chart_worker_node, subscript_last, subscript_first.
  rewrite Hq, Hdb, Hfirst. cbn [bind].
  destruct (last_of (originating_message prompt :: rest)) as [last|] eqn:Hlast.
  - cbn [bind]. destruct (_ && _); [left; eauto|].
    destruct (negb _); [right | left]; eauto.
  - exfalso. unfold last_of in Hlast. simpl in Hlast.
    destruct (rev rest ++ [originating_message prompt])%list eqn:E;
      [destruct (rev rest); discriminate E | discriminate Hlast].
Qed.

Lemma chart_env_reaches_chart_worker :
  exists r, reachable chart_env "Plot the sales table" ["shop.db"] db_chart_worker r.
Proof.
  eexists.
  eapply reach_step;
    [eapply reach_step;
       [eapply reach_step;
          [eapply reach_step; [apply reach_entry|]|]|]|];
    reflexivity.
Defined.

Lemma chart_worker_fails_only_on_plain_reply_witness :
  exists r,
    reachable chart_env "Plot the sales table" ["shop.db"] db_chart_worker r /\
    ((exists u, db_chart_worker_node chart_env (run_state r) = Ok u) \/
     (exists text,
         db_chart_worker_node chart_env (run_state r)
         = Raise (RuntimeError
                    ("db_chart_worker failed to call db_python_analyst tool. Response: "
                       ++ text)))).
Proof.
  destruct chart_env_reaches_chart_worker as [r Hr].
  exists r. split; [exact Hr|].
  exact (chart_worker_fails_only_on_plain_reply _ _ _ _ Hr).
Defined.

(** ** Where the stored statement comes from *)

Lemma node_last_sql env n s u :
  node_function env n s = Ok u ->
  u_last_sql_query u = None \/
  u_last_sql_query u = Some (last_sql_query s) \/
  (exists response call rest q,
      u_messages u = Some [response] /\
      msg_id response = None /\
      msg_class response = AIMessage /\
      tool_calls response = (call :: rest)%list /\
      dict_lookup (tc_args call) "query" = Some q /\
      u_last_sql_query u = Some (Some q)).
Proof.
  destruct n; cbn [node_function]; intros H.
  - left. unfold supervisor_node in H.
    destruct (last_of (messages s)); [|injection H as <-; reflexivity].
    destruct (_ && _); [injection H as <-; reflexivity|].
    apply bind_ok in H. destruct H as [text [_ H]].
    destruct (_ && _); [injection H as <-; reflexivity|].
    destruct (has_csv _); injection H as <-; reflexivity.
  - left. unfold csv_worker_node in H.
    apply bind_ok in H. destruct H as [last [_ H]].
    destruct (isinstance last ToolMessage).
    + destruct (content last); [injection H as <-; reflexivity | discriminate H].
    + apply bind_ok in H. destruct H as [first [_ H]].
      destruct (negb _); [discriminate H | injection H as <-; reflexivity].
  - unfold sql_worker_node in H.
    apply bind_ok in H. destruct H as [db_file [_ H]].
    apply bind_ok in H. destruct H as [tools [_ H]].
    apply bind_ok in H. destruct H as [last [_ H]].
    destruct (isinstance last ToolMessage);
      apply bind_ok in H; destruct H as [first [_ H]];
      apply bind_ok in H; destruct H as [user_query [_ H]].
    + left. destruct (_ && has_stored_query s); [injection H as <-; reflexivity|].
      destruct (_ && negb _); injection H as <-; reflexivity.
    + destruct (_ && _); [|injection H as <-; left; reflexivity].
      destruct (tool_calls _) as [|call calls] eqn:Hcalls; [discriminate H|].
      destruct (dict_lookup _ _) as [q|] eqn:Hq; [|discriminate H].
      injection H as <-. right. right.
      eexists _, call, calls, q. repeat split; eassumption.
  - left. apply (db_chart_worker_last_sql env _ _ H).
  - left. apply (tool_node_last_sql env _ _ H).
  - left. apply (tool_node_last_sql env _ _ H).
  - right. left. unfold call_sql_tools in H.
    apply bind_ok in H. destruct H as [db_file [_ H]].
    apply bind_ok in H. destruct H as [tools [_ H]].
    apply bind_ok in H. destruct H as [tool_result [_ H]].
    injection H as <-. reflexivity.
  - left. injection H as <-. reflexivity.
Qed.

(** X9. In a run the stored SQL statement is never made up: whenever
    [last_sql_query] holds a statement, some assistant message of the
    history requests, in its first tool call, exactly that [query]. *)
Theorem stored_query_comes_from_model env prompt files n r q :
  reachable env prompt files n r ->
  last_sql_query (run_state r) = Some q ->
  issued_by_model q (messages (run_state r)).
Proof.
  intros Hreach. revert q.
  induction Hreach as [|n0 r0 n r Hreach IH Hstep]; intros q Hq.
  - discriminate Hq.
  - destruct (reachable_invariant _ _ _ _ _ Hreach) as [Hwf _].
    destruct (step_appends _ _ _ _ _ Hwf Hstep) as [[new Hnew] _].
    destruct (step_inv _ _ _ _ _ Hstep) as [u [Hu [Hr _]]].
    assert (Hold : last_sql_query (run_state r0) = Some q ->
                   issued_by_model q (messages (run_state r))).
    { intros H0. destruct (IH q H0) as [m [call [rest [Hin Hm]]]].
      exists m, call, rest. split; [|exact Hm].
      rewrite Hnew. apply in_or_app. left. assumption. }
    rewrite Hr, apply_update_last_sql in Hq.
    destruct (node_last_sql env _ _ _ Hu)
      as [Hnone | [Hsame | [response [call [rest [q' [Hmsgs [Hid [Hai [Hcalls [Hlook Hset]]]]]]]]]]].
    + rewrite Hnone in Hq. apply Hold. exact Hq.
    + rewrite Hsame in Hq. apply Hold. exact Hq.
    + rewrite Hset in Hq. cbn [overwrite] in Hq. injection Hq as <-.
      exists (set_id (next_id r0) response), call, rest.
      split; [|repeat split; assumption].
      rewrite Hr. unfold apply_update. rewrite Hmsgs.
      rewrite (add_messages_fresh _ _ [response] (proj1 Hwf))
        by (constructor; [assumption | constructor]).
      cbn [run_state messages number]. apply in_or_app. right. left. reflexivity.
Qed.

Lemma stored_query_comes_from_model_witness :
  exists r,
    reachable chart_env "Plot the sales table" ["shop.db"] db_chart_worker r /\
    issued_by_model "SELECT name, total FROM sales" (messages (run_state r)).
Proof.
  assert (Hreach : reachable chart_env "Plot the sales table" ["shop.db"]
                     db_chart_worker
                     (mkRun (mkState
                        [originating_message "Plot the sales table";
                         mkMessage AIMessage (Some 1) (CStr "")
                           [mkToolCall "sql_db_query"
                                       [("query", "SELECT name, total FROM sales")]];
                         mkMessage ToolMessage (Some 2) (CStr "[('Chai', 12)]") []]
                        ["shop.db"] "db_chart_worker"
                        (Some "SELECT name, total FROM sales") None) 3)).
  { eapply reach_step;
      [eapply reach_step;
         [eapply reach_step;
            [eapply reach_step; [apply reach_entry|]|]|]|];
      reflexivity. }
  eexists. split; [exact Hreach|].
  exact (stored_query_comes_from_model _ _ _ _ _ _ Hreach eq_refl).
Defined.

(** ** Errors a node can raise *)








(** ** Runs with a model that sums up in prose *)























Example chart_env_visits_seven :
  fst (invoke chart_env (initial_state "Plot the sales table" ["shop.db"])
              recursion_limit)
  = [supervisor; sql_worker; sql_tools; sql_worker;
     db_chart_worker; db_chart_tools; db_chart_worker].
Proof. reflexivity. Qed.

(* ===================================================================== *)
(** * Chart markers and the analysis tools *)
(* ===================================================================== *)

(** ** Texts without a marker *)

Lemma contains_suffix_false w : forall t1 t2,
  PyStr.contains w (t1 ++ t2) = false -> PyStr.contains w t2 = false.
Proof.
  induction t1 as [|c t1 IH]; intros t2 H; [assumption|].
  change (String c t1 ++ t2) with (String c (t1 ++ t2)) in H.
  cbn [PyStr.contains] in H. apply orb_false_iff in H. destruct H as [_ H].
  apply IH. assumption.
Qed.



(** ** Texts without an image name *)

Lemma star_lazy_none {A} p (k : string -> option A) : forall s,
  (forall t1 t2, s = t1 ++ t2 -> k t2 = None) ->
  star_lazy p k s = None.
Proof.
  induction s as [|c s IH]; intros Hk; cbn [star_lazy].
  - rewrite (Hk "" "" eq_refl). reflexivity.
  - rewrite (Hk "" (String c s) eq_refl).
    destruct (p c); [|reflexivity].
    apply IH. intros t1 t2 ->. apply (Hk (String c t1) t2). reflexivity.
Qed.

Lemma star_greedy_none {A} p (k : string -> option A) : forall s,
  (forall t1 t2, s = t1 ++ t2 -> k t2 = None) ->
  star_greedy p k s = None.
Proof.
  induction s as [|c s IH]; intros Hk; cbn [star_greedy].
  - apply (Hk "" ""). reflexivity.
  - rewrite (Hk "" (String c s) eq_refl).
    rewrite IH by (intros t1 t2 ->; apply (Hk (String c t1) t2); reflexivity).
    destruct (p c); reflexivity.
Qed.

Lemma lit_rest_suffix cmp w : forall s rest,
  lit_rest cmp w s = Some rest -> exists pre, s = pre ++ rest.
Proof.
  induction w as [|a w IH]; intros s rest H; simpl in H.
  - injection H as <-. exists "". reflexivity.
  - destruct s as [|c s]; [discriminate|].
    destruct (cmp a c); [|discriminate].
    destruct (IH s rest H) as [pre ->]. exists (String c pre). reflexivity.
Qed.

Lemma png_group_needs_ext {A} s g (K : string -> option string -> option A) :
  PyStr.contains ".png" (PyStr.lower s) = false ->
  rmatch png_group s g K = None.
Proof.
  intros Hs. unfold png_group, Plus. cbn [rmatch].
  destruct s as [|c s]; [reflexivity|].
  destruct (dot c); [|reflexivity].
  apply star_lazy_none. intros t1 t2 ->.
  rewrite rmatch_Lit, lit_rest_ci_none; [reflexivity|].
  change (String c (t1 ++ t2)) with (String c t1 ++ t2) in Hs.
  rewrite lower_app in Hs. apply contains_suffix_false in Hs.
  cbn [PyStr.contains] in Hs. destruct (PyStr.lower t2);
    cbn [PyStr.contains] in Hs; apply orb_false_iff in Hs; apply Hs.
Qed.

Lemma search_none r : forall text,
  (forall t1 t2, text = t1 ++ t2 -> match_here r t2 = None) ->
  search r text = None.
Proof.
  induction text as [|c text IH]; intros H; cbn [search].
  - rewrite (H "" "" eq_refl). reflexivity.
  - rewrite (H "" (String c text) eq_refl).
    apply IH. intros t1 t2 ->. apply (H (String c t1) t2). reflexivity.
Qed.

Lemma no_ext_in_suffix t1 t2 :
  PyStr.contains ".png" (PyStr.lower (t1 ++ t2)) = false ->
  PyStr.contains ".png" (PyStr.lower t2) = false.
Proof. rewrite lower_app. apply contains_suffix_false. Qed.

Lemma saved_to_needs_ext s :
  PyStr.contains ".png" (PyStr.lower s) = false ->
  match_here saved_to_pattern s = None.
Proof.
  intros Hs. unfold match_here, saved_to_pattern. cbn [rmatch].
  rewrite rmatch_Lit.
  destruct (lit_rest ignoring_case "saved to:" s) as [rest|] eqn:Hrest; [|reflexivity].
  destruct (lit_rest_suffix _ _ _ _ Hrest) as [pre ->].
  apply star_greedy_none. intros t1 t2 ->.
  apply png_group_needs_ext.
  apply (no_ext_in_suffix t1). apply (no_ext_in_suffix pre). assumption.
Qed.

Lemma bracket_needs_ext s :
  PyStr.contains ".png" (PyStr.lower s) = false ->
  match_here bracket_pattern s = None.
Proof.
  intros Hs. unfold match_here, bracket_pattern, Plus. cbn [rmatch].
  rewrite rmatch_Lit.
  destruct (lit_rest ignoring_case "[Chart saved to" s) as [rest|] eqn:Hrest;
    [|reflexivity].
  destruct (lit_rest_suffix _ _ _ _ Hrest) as [pre ->].
  destruct rest as [|c rest]; [reflexivity|].
  destruct (space c); [|reflexivity].
  apply star_greedy_none. intros t1 t2 ->.
  apply png_group_needs_ext.
  apply (no_ext_in_suffix t1).
  apply (no_ext_in_suffix (pre ++ String c "")).
  rewrite append_assoc. assumption.
Qed.

(** X12. A text in which [.png] does not occur, in any letter case,
    yields no chart path, whatever markers it holds. *)
Theorem no_image_name_no_chart_path text :
  PyStr.contains ".png" (PyStr.lower text) = false ->
  extract_chart_path text = None.
Proof.
  intros Hext.
  unfold extract_chart_path, patterns. cbn [first_match]. unfold search_group1.
  rewrite (search_none saved_to_pattern text)
    by (intros t1 t2 ->; apply saved_to_needs_ext; apply (no_ext_in_suffix t1 _ Hext)).
  rewrite (search_none bracket_pattern text)
    by (intros t1 t2 ->; apply bracket_needs_ext; apply (no_ext_in_suffix t1 _ Hext)).
  reflexivity.
Qed.

Lemma no_image_name_no_chart_path_witness :
  extract_chart_path "Chart saved to: charts/sales.pdf [Chart saved to charts/s.svg]"
  = None.
Proof. apply no_image_name_no_chart_path. reflexivity. Defined.

(** ** The colon marker in general *)






(** ** Paths outside and inside the charts directory *)









(** ** The tool's marker and the tabular worker's reply *)















Example splitext_examples :
  splitext_root "products.csv" = "products" /\
  splitext_root "a.b.c" = "a.b" /\
  splitext_root ".hidden" = ".hidden" /\
  splitext_root "plain" = "plain" /\
  splitext_root "data/v1.2/shop.db" = "data/v1.2/shop" /\
  splitext_root "data.v1/shop" = "data.v1/shop".
Proof. repeat split; reflexivity. Qed.

(** ** From the tabular tool to the chart on screen *)









(** ** From the chart tool to the chart on screen *)











(* ===================================================================== *)
(** * Uploads *)
(* ===================================================================== *)

Lemma py_in_spec x xs : py_in x xs = true <-> In x xs.
Proof.
  unfold py_in. rewrite existsb_exists. split.
  - intros [y [Hy E]]. apply String.eqb_eq in E. subst. exact Hy.
  - intros H. exists x. split; [exact H | apply String.eqb_refl].
Qed.

Lemma upload_files_saved save : forall filenames session_files,
  (forall f, In f filenames -> exists u, save f = Ok u) ->
  NoDup session_files ->
  exists added,
    upload_files save session_files filenames
    = ((session_files ++ added)%list, Uploaded (session_files ++ added)%list) /\
    NoDup (session_files ++ added)%list /\
    (forall f, In f added <-> In f filenames /\ ~ In f session_files).
Proof.
  induction filenames as [|f rest IH]; intros session Hsave Hnodup.
  - exists []. rewrite app_nil_r. cbn. split; [reflexivity|].
    split; [assumption|]. intros f. tauto.
  - cbn [upload_files]. destruct (Hsave f (or_introl eq_refl)) as [u ->].
    assert (Hrest : forall g, In g rest -> exists u, save g = Ok u)
      by (intros g Hg; apply Hsave; right; exact Hg).
    destruct (py_in f session) eqn:Hin; cbn [negb].
    + apply py_in_spec in Hin.
      destruct (IH session Hrest Hnodup) as [added [Hrun [Hnd Hadded]]].
      exists added. split; [exact Hrun|]. split; [exact Hnd|].
      intros g. rewrite Hadded. cbn [In]. split.
      * intros [Hg Hn]. split; [right|]; assumption.
      * intros [[<- | Hg] Hn]; [contradiction|]. split; assumption.
    + assert (Hnot : ~ In f session).
      { intros H. apply py_in_spec in H. congruence. }
      destruct (IH (session ++ [f])%list Hrest) as [added [Hrun [Hnd Hadded]]].
      { apply NoDup_app; [assumption | repeat constructor; intros [] |].
        intros x Hx [<- | []]. contradiction. }
      rewrite <- app_assoc in Hrun, Hnd. cbn [app] in Hrun, Hnd.
      exists (f :: added). split; [exact Hrun|]. split; [exact Hnd|].
      intros g. cbn [In]. rewrite Hadded, in_app_iff. cbn [In].
      destruct (string_dec f g) as [-> | Hne]; tauto.
Qed.

(** X18. When every file of an upload is saved, [upload_files] answers
    with the tracked names, and these are the names tracked before, in
    their order, followed by the uploaded names that were not tracked
    yet; a list of tracked names without repetition stays so, also when
    the upload names a file twice. *)
Theorem upload_tracks_new_names_once save session_files filenames :
  (forall f, In f filenames -> exists u, save f = Ok u) ->
  NoDup session_files ->
  exists added,
    upload_files save session_files filenames
    = ((session_files ++ added)%list, Uploaded (session_files ++ added)%list) /\
    NoDup (session_files ++ added)%list /\
    (forall f, In f added <-> In f filenames /\ ~ In f session_files).
Proof. exact (upload_files_saved save filenames session_files). Qed.

Lemma upload_tracks_new_names_once_witness :
  exists added,
    upload_files (fun _ => Ok tt) ["a.csv"] ["b.db"; "a.csv"; "b.db"]
    = ((["a.csv"] ++ added)%list, Uploaded (["a.csv"] ++ added)%list) /\
    NoDup (["a.csv"] ++ added)%list /\
    (forall f, In f added <-> In f ["b.db"; "a.csv"; "b.db"] /\ ~ In f ["a.csv"]).
Proof.
  apply (upload_tracks_new_names_once (fun _ => Ok tt) ["a.csv"] ["b.db"; "a.csv"; "b.db"]).
  - intros f _. exists tt. reflexivity.
  - repeat constructor. intros [].
Defined.

Lemma upload_files_app save : forall before session_files rest,
  (forall f, In f before -> exists u, save f = Ok u) ->
  upload_files save session_files (before ++ rest)
  = upload_files save (fst (upload_files save session_files before)) rest.
Proof.
  induction before as [|f before IH]; intros session rest Hsave; [reflexivity|].
  cbn [app upload_files]. destruct (Hsave f (or_introl eq_refl)) as [u ->].
  apply IH. intros g Hg. apply Hsave. right. exact Hg.
Qed.

Lemma upload_files_keeps save : forall filenames session_files f,
  In f session_files -> In f (fst (upload_files save session_files filenames)).
Proof.
  induction filenames as [|g rest IH]; intros session f Hf; [exact Hf|].
  cbn [upload_files]. destruct (save g); [|exact Hf].
  apply IH. destruct (negb (py_in g session)); [|exact Hf].
  apply in_or_app. left. exact Hf.
Qed.

Lemma upload_files_tracks save : forall filenames session_files f,
  (forall g, In g filenames -> exists u, save g = Ok u) ->
  In f filenames -> In f (fst (upload_files save session_files filenames)).
Proof.
  induction filenames as [|g rest IH]; intros session f Hsave Hf; [destruct Hf|].
  cbn [upload_files]. destruct (Hsave g (or_introl eq_refl)) as [u ->].
  destruct Hf as [<- | Hf].
  - apply upload_files_keeps.
    destruct (py_in g session) eqn:Hin; cbn [negb].
    + apply py_in_spec. exact Hin.
    + apply in_or_app. right. left. reflexivity.
  - apply IH; [|exact Hf]. intros h Hh. apply Hsave. right. exact Hh.
Qed.

(** X19. An upload that fails half way is not undone: when the files
    before [f] are saved and saving [f] raises, [upload_files] answers
    with status 500 naming [f], the files after [f] are not looked at,
    and the names of the files before [f] stay tracked. *)
Theorem failed_upload_keeps_earlier_names save session_files before f after e :
  (forall g, In g before -> exists u, save g = Ok u) ->
  save f = Raise e ->
  let tracked := fst (upload_files save session_files before) in
  upload_files save session_files (before ++ f :: after)
  = (tracked, SavingFailed 500 f e) /\
  (forall g, In g session_files \/ In g before -> In g tracked).
Proof.
  intros Hsave Hf tracked. split.
  - rewrite upload_files_app by exact Hsave. cbn [upload_files].
    rewrite Hf. reflexivity.
  - intros g [Hg | Hg].
    + apply upload_files_keeps. exact Hg.
    + apply upload_files_tracks; assumption.
Qed.

Lemma failed_upload_keeps_earlier_names_witness :
  upload_files (disk_full_after ["a.csv"]) [] (["a.csv"] ++ "b.db" :: ["c.csv"])
  = (["a.csv"], SavingFailed 500 "b.db" (RuntimeError "No space left on device")) /\
  (forall g, In g [] \/ In g ["a.csv"] -> In g ["a.csv"]).
Proof.
  apply (failed_upload_keeps_earlier_names (disk_full_after ["a.csv"]) []
           ["a.csv"] "b.db" ["c.csv"] (RuntimeError "No space left on device")).
  - intros g [<- | []]. exists tt. reflexivity.
  - reflexivity.
Defined.
